(** * bcpyaz: bulk-copy wrappers around [bcp], [sqlcmd] and Azure blob staging

    A shallow embedding of [bcpyaz/binary_callers.py].

    - Python [str] and [bytes] values are [string]s (sequences of 8-bit
      characters): a [bytes] is its bytes, a [str] is the bytes of its
      UTF-8 encoding, so ASCII text is itself.  [None]-able arguments are
      [option string].
    - Python exceptions are values [PyExn cls args]; a function that may
      raise returns a [result].
    - [bcpaz] mutates the blob container: it runs in a state-and-error
      monad over a [World] (blob store, clock, log of external calls).
    - The external programs, the file system, the hash function and the
      Azure SDK signing routine are parameters collected in [Env]. *)

From Stdlib Require Import ZArith Ascii String List Bool Lia.
From stdpp Require Import base option list strings gmap pretty.

Local Open Scope string_scope.

(** ** Characters that cannot be written inside a string literal *)

Definition LF : ascii := "010"%char.
Definition CR : ascii := "013"%char.
Definition TAB : ascii := "009"%char.
Definition DQUOTE : ascii := "034"%char.
Definition SQUOTE : ascii := "039"%char.
Definition BACKSLASH : ascii := "092"%char.

Definition str1 (c : ascii) : string := String c EmptyString.

(** ** Python values, exceptions and results *)

Inductive pyval : Type :=
  | PStr (s : string)
  | PBytes (b : string)
  | PInt (n : Z)
  | PNone.

Inductive exn_class : Type :=
  | ExceptionC
  | ValueErrorC
  | TypeErrorC
  | IndexErrorC
  | KeyErrorC
  | OSErrorC
  | UnicodeDecodeErrorC
  | ParserErrorC
  | EmptyDataErrorC
  | ResourceExistsErrorC
  | ResourceNotFoundErrorC.

Record exn : Type := PyExn { exn_cls : exn_class; exn_args : list pyval }.

Inductive result (A : Type) : Type :=
  | Ok (a : A)
  | Raise (e : exn).
Arguments Ok {A} a.
Arguments Raise {A} e.

Definition is_ok {A} (r : result A) : bool :=
  match r with Ok _ => true | Raise _ => false end.

Definition bind_result {A B} (r : result A) (k : A -> result B) : result B :=
  match r with
  | Ok a => k a
  | Raise e => Raise e
  end.

Declare Scope result_scope.
Delimit Scope result_scope with result.
Notation "x <- r ;; k" := (bind_result r (fun x => k))
  (at level 100, r at next level, right associativity) : result_scope.

Definition ValueError (msg : string) : exn := PyExn ValueErrorC [PStr msg].
Definition Exception (msg : string) : exn := PyExn ExceptionC [PStr msg].
Definition TypeError (msg : string) : exn := PyExn TypeErrorC [PStr msg].
Definition IndexError (msg : string) : exn := PyExn IndexErrorC [PStr msg].
Definition KeyError (key : string) : exn := PyExn KeyErrorC [PStr key].

(** ** The string methods the module calls *)

Module PyStr.

(** [s.split(sep)] for a one-character separator: never returns [[]]. *)
Fixpoint split (sep : ascii) (s : string) : list string :=
  match s with
  | EmptyString => [EmptyString]
  | String c r =>
      if Ascii.eqb c sep then EmptyString :: split sep r
      else match split sep r with
           | h :: t => String c h :: t
           | [] => [str1 c]
           end
  end.

(** [s.split(sep, 1)]: at most one cut, at the first separator. *)
Fixpoint split1 (sep : ascii) (s : string) : list string :=
  match s with
  | EmptyString => [EmptyString]
  | String c r =>
      if Ascii.eqb c sep then [EmptyString; r]
      else match split1 sep r with
           | h :: t => String c h :: t
           | [] => [str1 c]
           end
  end.

(** [s.rstrip(c)] for a one-character set: drops every trailing [c]. *)
Fixpoint rstrip (c : ascii) (s : string) : string :=
  match s with
  | EmptyString => EmptyString
  | String a r =>
      match rstrip c r with
      | EmptyString => if Ascii.eqb a c then EmptyString else str1 a
      | r' => String a r'
      end
  end.

(** [sep.join(l)]. *)
Fixpoint join (sep : string) (l : list string) : string :=
  match l with
  | [] => EmptyString
  | [x] => x
  | x :: t => x ++ sep ++ join sep t
  end.

(** [s[-1]]: the last character, [None] standing for [IndexError]. *)
Fixpoint last_char (s : string) : option ascii :=
  match s with
  | EmptyString => None
  | String c EmptyString => Some c
  | String _ r => last_char r
  end.

(** [c in s] for a character. *)
Fixpoint mem (c : ascii) (s : string) : bool :=
  match s with
  | EmptyString => false
  | String a r => Ascii.eqb a c || mem c r
  end.

(** [s.startswith(p)]. *)
Fixpoint startswith (p s : string) : bool :=
  match p, s with
  | EmptyString, _ => true
  | String a p', String b s' => Ascii.eqb a b && startswith p' s'
  | String _ _, EmptyString => false
  end.

(** [needle in hay] for strings. *)
Fixpoint contains (needle hay : string) : bool :=
  startswith needle hay ||
  match hay with
  | EmptyString => false
  | String _ r => contains needle r
  end.

(** [s.replace(old, new)] for a non-empty [old]: matches are taken left to
    right and do not overlap; [skip] counts the characters of a match that
    are still to be dropped. *)
Fixpoint replace_go (old new : string) (skip : nat) (s : string) : string :=
  match s with
  | EmptyString => EmptyString
  | String c r =>
      match skip with
      | S k => replace_go old new k r
      | O =>
          if startswith old s
          then new ++ replace_go old new (String.length old - 1) r
          else String c (replace_go old new 0 r)
      end
  end.

(** With an empty [old], Python inserts [new] before every character and at
    the end. *)
Fixpoint intersperse (new s : string) : string :=
  match s with
  | EmptyString => new
  | String c r => new ++ String c (intersperse new r)
  end.

Definition replace (old new s : string) : string :=
  match old with
  | EmptyString => intersperse new s
  | _ => replace_go old new 0 s
  end.

(** The characters [str.strip()] removes. *)
Definition is_space (c : ascii) : bool :=
  let n := nat_of_ascii c in
  ((n =? 32) || ((9 <=? n) && (n <=? 13)) || ((28 <=? n) && (n <=? 31)))%nat.

Fixpoint lstrip_ws (s : string) : string :=
  match s with
  | EmptyString => EmptyString
  | String c r => if is_space c then lstrip_ws r else s
  end.

Fixpoint rstrip_ws (s : string) : string :=
  match s with
  | EmptyString => EmptyString
  | String a r =>
      match rstrip_ws r with
      | EmptyString => if is_space a then EmptyString else str1 a
      | r' => String a r'
      end
  end.

Definition strip (s : string) : string := rstrip_ws (lstrip_ws s).

(** [str(n)] for an integer. *)
Definition of_int (n : Z) : string := pretty n.

End PyStr.

(** ** [parse_blob_connection_str] *)

(** [dict(pairs)]: later pairs overwrite earlier ones. *)
Definition dict (pairs : list (string * string)) : gmap string string :=
  foldl (fun m kv => <[kv.1 := kv.2]> m) ∅ pairs.

(** A two-element list as a pair; [None] when the length is not 2. *)
Definition as_pair (tup : list string) : option (string * string) :=
  match tup with
  | [k; v] => Some (k, v)
  | _ => None
  end.

Definition conn_settings (conn_str : string) : list (list string) :=
  map (PyStr.split1 "=") (PyStr.split ";" (PyStr.rstrip ";" conn_str)).

Definition parse_blob_connection_str (conn_str : string)
  : result (gmap string string) :=
  let settings := conn_settings conn_str in
  if existsb (fun tup => negb (length tup =? 2)%nat) settings
  then Raise (ValueError "Connection string is either blank or malformed.")
  else Ok (dict (omap as_pair settings)).

(** ** [repr] of the values that end up in error messages *)

Module PyRepr.

Definition hex_digit (n : nat) : ascii :=
  ascii_of_nat (if (n <? 10)%nat then 48 + n else 87 + n).

(** One character inside a quoted literal delimited by [q].  In a [bytes]
    literal every byte from 127 on is written [\xNN].  In a [str] literal
    only the ASCII control characters are: the bytes of a character
    outside ASCII are printed as they are, which is what Python does for
    every printable character (it escapes the few that are not printable,
    such as the no-break space; the model is exact for ASCII text). *)
Definition escape_char (bytes_literal : bool) (q c : ascii) : string :=
  let n := nat_of_ascii c in
  if Ascii.eqb c BACKSLASH then String BACKSLASH (str1 BACKSLASH)
  else if Ascii.eqb c q then String BACKSLASH (str1 q)
  else if Ascii.eqb c LF then String BACKSLASH "n"
  else if Ascii.eqb c CR then String BACKSLASH "r"
  else if Ascii.eqb c TAB then String BACKSLASH "t"
  else if ((n <? 32) || (n =? 127) || (bytes_literal && (127 <? n)))%nat
       then String BACKSLASH
              (String "x" (String (hex_digit (n / 16)) (str1 (hex_digit (n mod 16)))))
  else str1 c.

Fixpoint escape (bytes_literal : bool) (q : ascii) (s : string) : string :=
  match s with
  | EmptyString => EmptyString
  | String c r => escape_char bytes_literal q c ++ escape bytes_literal q r
  end.

(** Python quotes with ['] unless the text has a ['] and no double quote. *)
Definition quote_for (s : string) : ascii :=
  if PyStr.mem SQUOTE s && negb (PyStr.mem DQUOTE s) then DQUOTE else SQUOTE.

(** The text between its quotes. *)
Definition quoted (bytes_literal : bool) (s : string) : string :=
  let q := quote_for s in
  String q (escape bytes_literal q s ++ str1 q).

(** [repr(s)] for a [str]. *)
Definition of_str (s : string) : string := quoted false s.

(** [repr(b)] for a [bytes]. *)
Definition of_bytes (b : string) : string := String "b" (quoted true b).

(** [repr] of one element of an argument list. *)
Definition of_arg (a : option string) : string :=
  match a with
  | Some s => of_str s
  | None => "None"
  end.

(** [repr(l)] for a list. *)
Definition of_list (l : list (option string)) : string :=
  "[" ++ PyStr.join ", " (map of_arg l) ++ "]".

End PyRepr.

(** ** [subprocess.CompletedProcess] *)

Record CompletedProcess : Type := {
  args : list (option string);
  returncode : Z;
  stdout : option string;
  stderr : option string
}.

(** [str(result)] as [CompletedProcess.__repr__] prints it: the streams
    that were not captured are left out. *)
Definition CompletedProcess_str (r : CompletedProcess) : string :=
  let stream (name : string) (o : option string) : list string :=
    match o with
    | Some b => [name ++ "=" ++ PyRepr.of_bytes b]
    | None => []
    end in
  "CompletedProcess("
  ++ PyStr.join ", "
       (["args=" ++ PyRepr.of_list (args r);
         "returncode=" ++ PyStr.of_int (returncode r)]
        ++ stream "stdout" (stdout r) ++ stream "stderr" (stderr r))
  ++ ")".

(** ** The caller's data objects

    [SqlTable] and [FlatFile] are defined outside [binary_callers.py]; the
    records list the attributes this module reads.  [get_format_file_path]
    is a method call, so it may raise. *)

Record SqlTable : Type := {
  schema : string;
  table : string;
  server : string;
  database : string;
  username : option string;
  password : option string;
  with_krb_auth : bool
}.

Record FlatFile : Type := {
  path : string;
  get_format_file_path : result string;
  file_has_header_line : bool
}.

(** ** The Azure SDK objects *)

(** [BlobSasPermissions(read=False, add=False, create=False, write=False,
    delete=False, delete_previous_version=False, tag=False, **kwargs)]. *)
Record BlobSasPermissions : Type := {
  perm_read : bool;
  perm_add : bool;
  perm_create : bool;
  perm_write : bool;
  perm_delete : bool;
  perm_delete_previous_version : bool;
  perm_tag : bool;
  perm_kwargs : list (string * bool)
}.

(** The arguments of one [generate_container_sas] call. *)
Record SasRequest : Type := {
  sas_account_name : string;
  sas_account_key : string;
  sas_container_name : string;
  sas_permission : BlobSasPermissions;
  sas_expiry : Z
}.

(** ** The environment *)

(** What a finished child process hands back. *)
Record ProcessExit : Type := {
  exit_code : Z;
  out_bytes : string;
  err_bytes : string
}.

Record Env : Type := {
  (** [hashlib.sha512(b).hexdigest()] *)
  hexdigest : string -> string;
  (** Spawning the program and waiting for it; spawning may raise. *)
  spawn : list string -> result ProcessExit;
  (** [open(path, "rb")] and reading the file. *)
  open_rb : string -> result string;
  (** [BlobClient.from_connection_string(conn_str, container_name,
      blob_name)] validates its arguments. *)
  from_connection_string : string -> string -> string -> result unit;
  (** [generate_container_sas] signs the request. *)
  sign_container_sas : SasRequest -> result string
}.

(** ** [sha512] *)

(** [text] is a [str] or [bytes] ([Some]) or anything else ([None] stands
    for Python's [None]).  In this model of 8-bit strings [encode] is the
    identity. *)
Definition sha512 (E : Env) (text : option string) : result string :=
  match text with
  | Some t => Ok (hexdigest E t)
  | None => Raise (ValueError "Invalid input. Cannot compute hash.")
  end.

(** ** [subprocess.run] *)

(** Every argument must be a string: [None] in the list is a [TypeError]
    before anything is spawned. *)
Fixpoint argv_strings (argv : list (option string)) : option (list string) :=
  match argv with
  | [] => Some []
  | Some a :: t => option_map (cons a) (argv_strings t)
  | None :: _ => None
  end.

Definition subprocess_run (E : Env) (argv : list (option string))
    (capture_stdout capture_stderr : bool) : result CompletedProcess :=
  match argv_strings argv with
  | None =>
      Raise (TypeError "expected str, bytes or os.PathLike object, not NoneType")
  | Some l =>
      match spawn E l with
      | Raise e => Raise e
      | Ok p =>
          Ok {| args := argv;
                returncode := exit_code p;
                stdout := if capture_stdout then Some (out_bytes p) else None;
                stderr := if capture_stderr then Some (err_bytes p) else None |}
      end
  end.

(** ** [bcp] *)

Local Open Scope result_scope.

(** The [except] block of [bcp]: every [str] argument of the exception has
    the password replaced by its hash.  The operands of [replace] are
    evaluated first, so hashing an absent password raises there. *)
Fixpoint scrub_args (E : Env) (pw : option string) (l : list pyval)
  : result (list pyval) :=
  match l with
  | [] => Ok []
  | PStr s :: t =>
      h <- sha512 E pw ;;
      match pw with
      | Some p =>
          t' <- scrub_args E pw t ;;
          Ok (PStr (PyStr.replace p h s) :: t')
      | None => Raise (TypeError "replace() argument 1 must be str, not None")
      end
  | a :: t =>
      t' <- scrub_args E pw t ;;
      Ok (a :: t')
  end.

Definition bcp_auth (sql_table : SqlTable) : list (option string) :=
  if with_krb_auth sql_table
  then [Some "-T"]
  else [Some "-U"; username sql_table; Some "-P"; password sql_table].

Definition full_table_string (sql_table : SqlTable) : string :=
  schema sql_table ++ "." ++ table sql_table.

(** The argument list as it stands when [subprocess.run] is called: the
    [try] block followed by the header test. *)
Definition bcp_command (E : Env) (sql_table : SqlTable) (flat_file : FlatFile)
    (batch_size : Z) : result (list (option string)) :=
  cmd <- match get_format_file_path flat_file with
         | Ok format_file =>
             Ok ([Some "bcp"; Some (full_table_string sql_table); Some "IN";
                  Some (path flat_file); Some "-f"; Some format_file;
                  Some "-S"; Some (server sql_table);
                  Some "-d"; Some (database sql_table);
                  Some "-b"; Some (PyStr.of_int batch_size)]
                 ++ bcp_auth sql_table)%list
         | Raise e =>
             args_clean <- scrub_args E (password sql_table) (exn_args e) ;;
             Raise (PyExn (exn_cls e) args_clean)
         end ;;
  if file_has_header_line flat_file
  then Ok (cmd ++ [Some "-F"; Some "2"; Some "-q"; Some "-k"])%list
  else Ok cmd.

Definition bcp (E : Env) (sql_table : SqlTable) (flat_file : FlatFile)
    (batch_size : Z) : result unit :=
  cmd <- bcp_command E sql_table flat_file batch_size ;;
  result <- subprocess_run E cmd false true ;;
  if (returncode result =? 0)%Z
  then Ok tt
  else Raise (Exception ("Bcp command failed. Details:" ++ str1 LF
                         ++ CompletedProcess_str result)).

(** ** [pandas.read_csv], as far as [sqlcmd] relies on it

    The model tokenises: physical lines are cut at line feeds, the lines
    listed in [skiprows] (numbered from 0) are dropped, then blank lines,
    and every remaining line is cut at commas.  With nothing left pandas
    raises [EmptyDataError].  Cells keep their text.  Outside the model:
    quoting, column types and missing-value markers, renaming of repeated
    column names, an extra leading field taken as index, padding of short
    rows, and line ends other than the line feed.  The statements below
    use it on the empty output and on one plain table only. *)

Inductive header_arg : Type := HeaderNone | HeaderInfer.

Inductive column_label : Type :=
  | ColName (s : string)
  | ColPos (i : nat).

Record DataFrame : Type := {
  columns : list column_label;
  rows : list (list string)
}.

Module Pandas.

(** The physical lines of a buffer; a final line feed ends the last line
    and does not open another one. *)
Fixpoint lines (s : string) : list string :=
  match s with
  | EmptyString => []
  | String c r =>
      if Ascii.eqb c LF then EmptyString :: lines r
      else match lines r with
           | h :: t => String c h :: t
           | [] => [str1 c]
           end
  end.

Fixpoint drop_rows (skiprows : list nat) (i : nat) (l : list string)
  : list string :=
  match l with
  | [] => []
  | x :: t =>
      if existsb (Nat.eqb i) skiprows
      then drop_rows skiprows (S i) t
      else x :: drop_rows skiprows (S i) t
  end.

Definition is_blank (line : string) : bool :=
  match PyStr.strip line with
  | EmptyString => true
  | _ => false
  end.

Definition records (buf : string) (skiprows : list nat) : list (list string) :=
  map (PyStr.split ",")
      (filter (fun l => is_blank l = false) (drop_rows skiprows 0 (lines buf))).

Definition read_csv (buf : string) (skiprows : list nat) (header : header_arg)
  : result DataFrame :=
  match records buf skiprows with
  | [] => Raise (PyExn EmptyDataErrorC [PStr "No columns to parse from file"])
  | first :: rest =>
      match header with
      | HeaderInfer =>
          Ok {| columns := map ColName first; rows := rest |}
      | HeaderNone =>
          Ok {| columns := map ColPos (seq 0 (length first));
                rows := first :: rest |}
      end
  end.

End Pandas.

(** ** [sqlcmd] *)

(** [not x] for an optional string: [None] and the empty string are falsy. *)
Definition falsy (x : option string) : bool :=
  match x with
  | None | Some EmptyString => true
  | Some _ => false
  end.

(** [b.decode('ascii')] *)
Fixpoint is_ascii (b : string) : bool :=
  match b with
  | EmptyString => true
  | String c r => (nat_of_ascii c <? 128)%nat && is_ascii r
  end.

(** The position of the first byte that is not ASCII (the length when
    there is none). *)
Fixpoint first_non_ascii (b : string) : nat :=
  match b with
  | EmptyString => 0
  | String c r =>
      if (nat_of_ascii c <? 128)%nat then S (first_non_ascii r) else 0
  end.

(** The exception carries the codec, the bytes, the position of the first
    offending byte, the position after it, and the reason. *)
Definition decode_ascii (b : string) : result string :=
  if is_ascii b then Ok b
  else
    let start := Z.of_nat (first_non_ascii b) in
    Raise (PyExn UnicodeDecodeErrorC
             [PStr "ascii"; PBytes b; PInt start; PInt (start + 1);
              PStr "ordinal not in range(128)"]).

(** [StringIO(text).readline()]: up to and including the first line feed. *)
Fixpoint readline (text : string) : string :=
  match text with
  | EmptyString => EmptyString
  | String c r => if Ascii.eqb c LF then str1 c else String c (readline r)
  end.

Definition sqlcmd_auth (username password : option string) : list string :=
  if falsy username || falsy password then ["-E"]
  else ["-U"; default EmptyString username; "-P"; default EmptyString password].

Definition sqlcmd_command (server database command : string)
    (username password : option string) : list string :=
  (["sqlcmd"; "-S"; server; "-d"; database; "-b"]
   ++ sqlcmd_auth username password
   ++ ["-I"; "-s,"; "-W"; "-Q"; ("set nocount on;" ++ command)%string])%list.

Definition sqlcmd (E : Env) (server database command : string)
    (username password : option string) : result (option DataFrame) :=
  let cmd := sqlcmd_command server database command username password in
  result <- subprocess_run E (map Some cmd) true true ;;
  if negb (returncode result =? 0)%Z then
    let dump := CompletedProcess_str result in
    h <- sha512 E password ;;
    match password with
    | Some p =>
        Raise (Exception ("Sqlcmd command failed. Details:" ++ str1 LF
                          ++ PyStr.replace p h dump))
    | None => Raise (TypeError "replace() argument 1 must be str, not None")
    end
  else
    output <- decode_ascii (default EmptyString (stdout result)) ;;
    let first_line_output := PyStr.strip (readline output) in
    let header :=
      match first_line_output with
      | EmptyString => HeaderNone
      | _ => HeaderInfer
      end in
    match Pandas.read_csv output [1] header with
    | Ok df => Ok (Some df)
    | Raise e =>
        match exn_cls e with
        | EmptyDataErrorC => Ok None
        | _ => Raise e
        end
    end.

(** ** The world [bcpaz] acts on *)

Inductive Event : Type :=
  | EvUpload (container blob data : string)
  | EvSas (req : SasRequest) (token : string) (at_time : Z)
  | EvSqlcmd (server database command : string)
             (username password : option string)
  | EvDelete (container blob : string).

(** [blobs] maps (container, blob name) to the stored bytes; [clock] is
    what [datetime.now()] reads, in microseconds; [journal] lists the
    external calls made so far, oldest first. *)
Record World : Type := {
  blobs : gmap (string * string) string;
  clock : Z;
  journal : list Event
}.

Definition record_event (ev : Event) (w : World) : World :=
  {| blobs := blobs w; clock := clock w; journal := journal w ++ [ev] |}.

Definition M (A : Type) : Type := World -> result A * World.

Definition ret {A} (a : A) : M A := fun w => (Ok a, w).

Definition bind {A B} (m : M A) (k : A -> M B) : M B :=
  fun w =>
    match m w with
    | (Ok a, w') => k a w'
    | (Raise e, w') => (Raise e, w')
    end.

Definition lift {A} (r : result A) : M A := fun w => (r, w).

Declare Scope world_scope.
Delimit Scope world_scope with world.
Notation "x <~ m ;; k" := (bind m (fun x => k))
  (at level 100, m at next level, right associativity) : world_scope.

(** [timedelta(hours=h)] in microseconds. *)
Definition timedelta_hours (h : Z) : Z := (h * 3600 * 1000000)%Z.

Definition datetime_now : M Z := fun w => (Ok (clock w), w).

(** [blob.upload_blob(data)] with the default [overwrite=False]. *)
Definition upload_blob (container blob data : string) : M unit :=
  fun w =>
    match blobs w !! (container, blob) with
    | Some _ =>
        (Raise (PyExn ResourceExistsErrorC
                  [PStr "The specified blob already exists."]), w)
    | None =>
        (Ok tt,
         record_event (EvUpload container blob data)
           {| blobs := <[(container, blob) := data]> (blobs w);
              clock := clock w; journal := journal w |})
    end.

(** [blob.delete_blob()] *)
Definition delete_blob (container blob : string) : M unit :=
  fun w =>
    match blobs w !! (container, blob) with
    | None =>
        (Raise (PyExn ResourceNotFoundErrorC
                  [PStr "The specified blob does not exist."]), w)
    | Some _ =>
        (Ok tt,
         record_event (EvDelete container blob)
           {| blobs := delete (container, blob) (blobs w);
              clock := clock w; journal := journal w |})
    end.

(** [generate_container_sas(...)]: a token that was minted is journalled
    with its request and the time of the call. *)
Definition generate_container_sas (E : Env) (req : SasRequest) : M string :=
  fun w =>
    match sign_container_sas E req with
    | Ok token => (Ok token, record_event (EvSas req token (clock w)) w)
    | Raise e => (Raise e, w)
    end.

(** The call of [sqlcmd] made by [bcpaz], journalled when it is issued.
    The blob store of the model records what [bcpaz] itself uploads and
    deletes: what the database server reads from or writes to the
    container while it executes the statement (the error file it is told
    to write) is not represented. *)
Definition call_sqlcmd (E : Env) (server database command : string)
    (username password : option string) : M (option DataFrame) :=
  fun w =>
    (sqlcmd E server database command username password,
     record_event (EvSqlcmd server database command username password) w).

(** [d[key]] *)
Definition getitem (d : gmap string string) (key : string) : result string :=
  match d !! key with
  | Some v => Ok v
  | None => Raise (KeyError key)
  end.

(** [os.path.basename(p)] as [posixpath] defines it: what follows the last
    slash.  (On Windows [os.path] is [ntpath], which also cuts at
    backslashes; the statements below take the blob name as given by this
    function and do not depend on where it cuts.) *)
Definition basename (p : string) : string :=
  List.last (PyStr.split "/" p) EmptyString.

(** ** [bcpaz] *)

(** [if conn_string[-1] != '/': conn_string += '/'] *)
Definition with_trailing_slash (conn_string : string) : result string :=
  match PyStr.last_char conn_string with
  | None => Raise (IndexError "string index out of range")
  | Some c =>
      if Ascii.eqb c "/" then Ok conn_string else Ok (conn_string ++ "/")
  end.

Definition bcpaz_perms : BlobSasPermissions :=
  {| perm_read := true; perm_add := true; perm_create := true;
     perm_write := true; perm_delete := true;
     perm_delete_previous_version := true; perm_tag := true;
     perm_kwargs := [] |}.

(** The address the statement loads from. *)
Definition blob_url (container_name blob_name : string) : string :=
  "https://arcturusdevstgacc.blob.core.windows.net/"
  ++ container_name ++ "/" ++ blob_name.

(** The text of the [COPY INTO] statement after [format]. *)
Definition copy_into_sql (schema_name table_name container_name blob_name
    sas : string) : string :=
  str1 LF
  ++ "    COPY INTO [" ++ schema_name ++ "].[" ++ table_name ++ "]" ++ str1 LF
  ++ "    FROM '" ++ blob_url container_name blob_name ++ "'" ++ str1 LF
  ++ "    WITH (" ++ str1 LF
  ++ "        FILE_TYPE = 'CSV'," ++ str1 LF
  ++ "        CREDENTIAL=(IDENTITY= 'Shared Access Signature', SECRET='"
  ++ sas ++ "')," ++ str1 LF
  ++ "        FIELDQUOTE = '" ++ str1 DQUOTE ++ "'," ++ str1 LF
  ++ "        FIELDTERMINATOR=','," ++ str1 LF
  ++ "        FIRSTROW=2, -- Skip header" ++ str1 LF
  ++ "        ROWTERMINATOR='0X0A'," ++ str1 LF
  ++ "        ENCODING = 'UTF8'," ++ str1 LF
  ++ "        MAXERRORS = 0," ++ str1 LF
  ++ "        ERRORFILE = '/errorsfolder_" ++ blob_name
  ++ "' --path starting from the storage container" ++ str1 LF
  ++ "    )" ++ str1 LF
  ++ "    ".

Local Open Scope world_scope.

Definition bcpaz (E : Env) (sql_table : SqlTable) (flat_file : FlatFile)
    (azure_storage_connection_string azure_temp_storage_container : string)
  : M unit :=
  conn_string <~ lift (with_trailing_slash azure_storage_connection_string) ;;
  let container_name := azure_temp_storage_container in
  let blob_name := basename (path flat_file) in
  _ <~ lift (from_connection_string E conn_string container_name blob_name) ;;
  data <~ lift (open_rb E (path flat_file)) ;;
  _ <~ upload_blob container_name blob_name data ;;
  blob_conn <~ lift (parse_blob_connection_str conn_string) ;;
  let perms := bcpaz_perms in
  account_name <~ lift (getitem blob_conn "AccountName") ;;
  account_key <~ lift (getitem blob_conn "AccountKey") ;;
  now <~ datetime_now ;;
  sas <~ generate_container_sas E
           {| sas_account_name := account_name;
              sas_account_key := account_key;
              sas_container_name := container_name;
              sas_permission := perms;
              sas_expiry := (now + timedelta_hours 24)%Z |} ;;
  let sql := copy_into_sql (schema sql_table) (table sql_table)
                           container_name blob_name sas in
  _ <~ call_sqlcmd E (server sql_table) (database sql_table) sql
         (username sql_table) (password sql_table) ;;
  delete_blob container_name blob_name.

Local Close Scope world_scope.
Local Close Scope result_scope.

(** ** Sample inputs used to exercise the statements below *)

Module Sample.

(** A stand-in for the digest: it only has to be some function. *)
Definition digest (s : string) : string :=
  "sha512-of-" ++ PyStr.of_int (Z.of_nat (String.length s)) ++ "-bytes".

Definition file_bytes : string :=
  "id,name" ++ str1 LF ++ "1,a" ++ str1 LF.

Definition env (p : ProcessExit) : Env :=
  {| hexdigest := digest;
     spawn := fun _ => Ok p;
     open_rb := fun _ => Ok file_bytes;
     from_connection_string := fun _ _ _ => Ok tt;
     sign_container_sas := fun req =>
       Ok ("sr=c&sp=racwdxt&sig=" ++ sas_account_name req) |}.

Definition sql_table : SqlTable :=
  {| schema := "dbo"; table := "sales"; server := "db.example.net";
     database := "dw"; username := Some "loader";
     password := Some "hunter2"; with_krb_auth := false |}.

Definition flat_file : FlatFile :=
  {| path := "/data/in/sales.csv";
     get_format_file_path := Ok "/data/in/sales.fmt";
     file_has_header_line := true |}.

Definition exit_ok (out : string) : ProcessExit :=
  {| exit_code := 0; out_bytes := out; err_bytes := EmptyString |}.

Definition exit_failed : ProcessExit :=
  {| exit_code := 1; out_bytes := EmptyString;
     err_bytes := "Login failed for user 'loader'." |}.

Definition world : World :=
  {| blobs := ∅; clock := 1700000000000000; journal := [] |}.

Definition conn_str : string := "AccountName=acct;AccountKey=a2V5".

(** The output of the spec's worked example. *)
Definition table_output : string :=
  "colA,colB" ++ str1 LF ++ "-,-" ++ str1 LF
  ++ "1,x" ++ str1 LF ++ "2,y" ++ str1 LF.

End Sample.

(** ** Vocabulary of the statements *)

(** The text [K1=V1;K2=V2;...;Kn=Vn] of a list of settings. *)
Definition setting_text (kv : string * string) : string :=
  kv.1 ++ "=" ++ kv.2.

Definition conn_str_of (kvs : list (string * string)) : string :=
  PyStr.join ";" (map setting_text kvs).

(** A key holds neither [=] nor [;], a value holds no [;]. *)
Definition plain_setting (kv : string * string) : bool :=
  negb (PyStr.mem "=" kv.1) && negb (PyStr.mem ";" kv.1)
  && negb (PyStr.mem ";" kv.2).

Fixpoint count_char (c : ascii) (s : string) : nat :=
  match s with
  | EmptyString => 0
  | String a r => (if Ascii.eqb a c then 1 else 0) + count_char c r
  end.

(** Text that [repr] prints as it is: printable characters other than the
    quotes and the backslash. *)
Definition plain_char (c : ascii) : bool :=
  let n := nat_of_ascii c in
  ((32 <=? n) && (n <=? 126))%nat
  && negb (Ascii.eqb c SQUOTE) && negb (Ascii.eqb c DQUOTE)
  && negb (Ascii.eqb c BACKSLASH).

Fixpoint plain_text (s : string) : bool :=
  match s with
  | EmptyString => true
  | String c r => plain_char c && plain_text r
  end.

(** The events a run added to the journal. *)
Definition new_events (before after : World) : list Event :=
  drop (length (journal before)) (journal after).

(** The request [bcpaz] signs for an account, a container and a time. *)
Definition staging_request (name key container_name : string) (now : Z)
  : SasRequest :=
  {| sas_account_name := name;
     sas_account_key := key;
     sas_container_name := container_name;
     sas_permission := bcpaz_perms;
     sas_expiry := (now + timedelta_hours 24)%Z |}.

(** Everything before the load statement goes through: the descriptor is
    accepted, the file is read, the blob name is free, the descriptor
    parses and names the account and its key, and the token is signed. *)
Definition staging_succeeds (E : Env) (flat_file : FlatFile)
    (conn container_name : string) (w : World)
    (data name key token : string) : Prop :=
  exists (conn' : string) (blob_conn : gmap string string),
    with_trailing_slash conn = Ok conn'
    /\ from_connection_string E conn' container_name
         (basename (path flat_file)) = Ok tt
    /\ open_rb E (path flat_file) = Ok data
    /\ blobs w !! (container_name, basename (path flat_file)) = None
    /\ parse_blob_connection_str conn' = Ok blob_conn
    /\ blob_conn !! "AccountName" = Some name
    /\ blob_conn !! "AccountKey" = Some key
    /\ sign_container_sas E
         (staging_request name key container_name (clock w)) = Ok token.

(** The world after the upload, after the token and after the statement. *)
Definition world_uploaded (container_name blob data : string) (w : World)
  : World :=
  record_event (EvUpload container_name blob data)
    {| blobs := <[(container_name, blob) := data]> (blobs w);
       clock := clock w; journal := journal w |}.

Definition world_loaded (sql_table : SqlTable)
    (container_name blob data name key token : string) (w : World) : World :=
  record_event
    (EvSqlcmd (server sql_table) (database sql_table)
       (copy_into_sql (schema sql_table) (table sql_table) container_name
          blob token)
       (username sql_table) (password sql_table))
    (record_event
       (EvSas (staging_request name key container_name (clock w)) token
          (clock w))
       (world_uploaded container_name blob data w)).

Definition world_deleted (container_name blob : string) (w : World) : World :=
  record_event (EvDelete container_name blob)
    {| blobs := delete (container_name, blob) (blobs w);
       clock := clock w; journal := journal w |}.


Definition is_str (a : pyval) : bool :=
  match a with
  | PStr _ => true
  | _ => false
  end.

(** The steps of [bcpaz] up to and including the upload go through. *)
Definition upload_succeeds (E : Env) (flat_file : FlatFile)
    (conn container_name : string) (w : World) (conn' data : string) : Prop :=
  with_trailing_slash conn = Ok conn'
  /\ from_connection_string E conn' container_name
       (basename (path flat_file)) = Ok tt
  /\ open_rb E (path flat_file) = Ok data
  /\ blobs w !! (container_name, basename (path flat_file)) = None.

(** The four ways a run of [bcpaz] can end, with the world each leaves. *)
Inductive outcome (E : Env) (sql_table : SqlTable) (flat_file : FlatFile)
    (conn container_name : string) (w : World)
  : result unit * World -> Prop :=
  | EndedBeforeUpload (e : exn) :
      outcome E sql_table flat_file conn container_name w (Raise e, w)
  | EndedAfterUpload (e : exn) (data : string) :
      open_rb E (path flat_file) = Ok data ->
      outcome E sql_table flat_file conn container_name w
        (Raise e,
         world_uploaded container_name (basename (path flat_file)) data w)
  | EndedInLoad (e : exn) (data name key token : string) :
      staging_succeeds E flat_file conn container_name w data name key token ->
      outcome E sql_table flat_file conn container_name w
        (Raise e,
         world_loaded sql_table container_name (basename (path flat_file))
           data name key token w)
  | Completed (data name key token : string) :
      staging_succeeds E flat_file conn container_name w data name key token ->
      outcome E sql_table flat_file conn container_name w
        (Ok tt,
         world_deleted container_name (basename (path flat_file))
           (world_loaded sql_table container_name (basename (path flat_file))
              data name key token w)).

(** * Properties *)

(** ** Facts about the string methods *)

(** stdpp freezes [String.append] under [simpl]; the proofs below unfold it
    on constructors. *)
Local Arguments String.append !s1 s2 : simpl nomatch.

Section StringFacts.

Import PyStr.

Example split_keeps_empty_pieces :
  split ";" "a=b;;c=d;" = ["a=b"; EmptyString; "c=d"; EmptyString].
Proof. reflexivity. Qed.

Example split1_cuts_once : split1 "=" "k=v=w" = ["k"; "v=w"].
Proof. reflexivity. Qed.

Example rstrip_drops_every_trailing : rstrip ";" "a;b;;;" = "a;b".
Proof. reflexivity. Qed.

Example replace_does_not_overlap : replace "aa" "X" "aaaaa" = "XXa".
Proof. reflexivity. Qed.

Example replace_empty_old : replace EmptyString "X" "ab" = "XaXbX".
Proof. reflexivity. Qed.

Lemma append_nil_r (s : string) : s ++ EmptyString = s.
Proof. induction s as [|a s IH]; simpl; [reflexivity | now rewrite IH]. Qed.

Lemma append_assoc (s t u : string) : (s ++ t) ++ u = s ++ t ++ u.
Proof. induction s as [|a s IH]; simpl; [reflexivity | now rewrite IH]. Qed.

Lemma mem_app (c : ascii) (s t : string) :
  mem c (s ++ t) = mem c s || mem c t.
Proof.
  induction s as [|a s IH]; simpl; [reflexivity|].
  rewrite IH. now rewrite orb_assoc.
Qed.

Lemma split_not_nil (c : ascii) (s : string) : split c s <> [].
Proof.
  induction s as [|a s IH]; simpl; [discriminate|].
  destruct (Ascii.eqb a c); [discriminate|].
  destruct (split c s); discriminate.
Qed.

Lemma split_no_sep (c : ascii) (s : string) :
  mem c s = false -> split c s = [s].
Proof.
  induction s as [|a s IH]; simpl; [reflexivity|].
  intros H. apply orb_false_iff in H as [Ha Hs].
  rewrite Ha, (IH Hs). reflexivity.
Qed.

(** Cutting at a separator that is known to be there. *)
Lemma split_app_sep (c : ascii) (s t : string) :
  split c (s ++ String c t) = (split c s ++ split c t)%list.
Proof.
  induction s as [|a s IH]; simpl.
  - now rewrite Ascii.eqb_refl.
  - destruct (Ascii.eqb a c); rewrite IH; [reflexivity|].
    pose proof (split_not_nil c s) as Hne.
    destruct (split c s); [contradiction | reflexivity].
Qed.

Lemma split_cons_segment (c : ascii) (seg rest : string) :
  mem c seg = false ->
  split c (seg ++ String c rest) = seg :: split c rest.
Proof.
  intros H. rewrite split_app_sep, (split_no_sep _ _ H). reflexivity.
Qed.

Lemma split1_no_sep (c : ascii) (s : string) :
  mem c s = false -> split1 c s = [s].
Proof.
  induction s as [|a s IH]; simpl; [reflexivity|].
  intros H. apply orb_false_iff in H as [Ha Hs].
  rewrite Ha, (IH Hs). reflexivity.
Qed.

Lemma split1_first_sep (c : ascii) (k v : string) :
  mem c k = false -> split1 c (k ++ String c v) = [k; v].
Proof.
  induction k as [|a k IH]; simpl.
  - now rewrite Ascii.eqb_refl.
  - intros H. apply orb_false_iff in H as [Ha Hk].
    rewrite Ha, (IH Hk). reflexivity.
Qed.

(** [split(sep, 1)] gives two pieces exactly when the separator occurs. *)
Lemma split1_length (c : ascii) (s : string) :
  length (split1 c s) = if mem c s then 2 else 1.
Proof.
  induction s as [|a s IH]; simpl; [reflexivity|].
  destruct (Ascii.eqb a c); simpl; [reflexivity|].
  destruct (split1 c s) as [|h t]; simpl in *.
  - destruct (mem c s); discriminate.
  - exact IH.
Qed.

Lemma rstrip_no_sep (c : ascii) (s : string) :
  mem c s = false -> rstrip c s = s.
Proof.
  induction s as [|a s IH]; simpl; [reflexivity|].
  intros H. apply orb_false_iff in H as [Ha Hs].
  rewrite (IH Hs), Ha. destruct s; reflexivity.
Qed.

(** A tail that [rstrip] leaves alone protects what comes before it. *)
Lemma rstrip_app_fixed (c : ascii) (s u : string) :
  u <> EmptyString -> rstrip c u = u -> rstrip c (s ++ u) = s ++ u.
Proof.
  intros Hne Hu. induction s as [|a s IH]; simpl; [exact Hu|].
  rewrite IH. destruct (s ++ u) eqn:Hsu; [|reflexivity].
  destruct s; simpl in Hsu; [contradiction | discriminate].
Qed.

Lemma rstrip_snoc (c : ascii) (s : string) :
  rstrip c (s ++ str1 c) = rstrip c s.
Proof.
  induction s as [|a s IH]; simpl.
  - now rewrite Ascii.eqb_refl.
  - now rewrite IH.
Qed.

Lemma last_char_snoc (s : string) (c : ascii) :
  last_char (s ++ str1 c) = Some c.
Proof.
  induction s as [|a s IH]; simpl; [reflexivity|].
  rewrite IH. destruct s; reflexivity.
Qed.

Lemma startswith_app (p s : string) : startswith p (p ++ s) = true.
Proof.
  induction p as [|a p IH]; simpl; [reflexivity|].
  now rewrite Ascii.eqb_refl.
Qed.

Lemma contains_startswith (needle hay : string) :
  startswith needle hay = true -> contains needle hay = true.
Proof. intros H. destruct hay; simpl; rewrite H; reflexivity. Qed.

Lemma contains_app_r (needle pre post : string) :
  contains needle (pre ++ needle ++ post) = true.
Proof.
  induction pre as [|a pre IH]; simpl.
  - apply contains_startswith, startswith_app.
  - rewrite IH. apply orb_true_r.
Qed.

End StringFacts.

(** ** The connection-string parser *)

Section Parser.

Import PyStr.

Lemma join_cons2 (sep x y : string) (t : list string) :
  join sep (x :: y :: t) = x ++ sep ++ join sep (y :: t).
Proof. reflexivity. Qed.

Lemma setting_text_no_semicolon (kv : string * string) :
  plain_setting kv = true -> mem ";" (setting_text kv) = false.
Proof.
  unfold plain_setting, setting_text. intros H.
  apply andb_true_iff in H as [H Hv]. apply andb_true_iff in H as [_ Hk].
  apply negb_true_iff in Hk, Hv.
  rewrite mem_app, Hk. simpl. exact Hv.
Qed.

Lemma split1_setting_text (kv : string * string) :
  plain_setting kv = true -> split1 "=" (setting_text kv) = [kv.1; kv.2].
Proof.
  unfold plain_setting, setting_text. intros H.
  apply andb_true_iff in H as [H _]. apply andb_true_iff in H as [Hk _].
  apply negb_true_iff in Hk.
  change (kv.1 ++ "=" ++ kv.2) with (kv.1 ++ String "=" kv.2).
  now apply split1_first_sep.
Qed.

Lemma setting_text_not_empty (kv : string * string) :
  setting_text kv <> EmptyString.
Proof.
  unfold setting_text. destruct (kv.1); simpl; discriminate.
Qed.

Lemma conn_str_of_not_empty (kvs : list (string * string)) :
  kvs <> [] -> conn_str_of kvs <> EmptyString.
Proof.
  destruct kvs as [|kv [|kv' t]]; [congruence | |]; intros _.
  - apply setting_text_not_empty.
  - unfold conn_str_of. simpl map. rewrite join_cons2.
    pose proof (setting_text_not_empty kv).
    destruct (setting_text kv); [congruence | simpl; discriminate].
Qed.

(** Stripping changes nothing: the text ends in a value or in [=]. *)
Lemma rstrip_conn_str_of (kvs : list (string * string)) :
  kvs <> [] -> forallb plain_setting kvs = true ->
  rstrip ";" (conn_str_of kvs) = conn_str_of kvs.
Proof.
  induction kvs as [|kv t IH]; [congruence|]. intros _ Hwf.
  simpl in Hwf. apply andb_true_iff in Hwf as [Hkv Ht].
  destruct t as [|kv' t].
  - apply rstrip_no_sep. now apply setting_text_no_semicolon.
  - unfold conn_str_of in *. simpl map in *. rewrite join_cons2.
    rewrite <- append_assoc. apply rstrip_app_fixed.
    + apply (conn_str_of_not_empty (kv' :: t)). discriminate.
    + apply IH; [discriminate | exact Ht].
Qed.

Lemma split_conn_str_of (kvs : list (string * string)) :
  kvs <> [] -> forallb plain_setting kvs = true ->
  split ";" (conn_str_of kvs) = map setting_text kvs.
Proof.
  induction kvs as [|kv t IH]; [congruence|]. intros _ Hwf.
  simpl in Hwf. apply andb_true_iff in Hwf as [Hkv Ht].
  destruct t as [|kv' t].
  - apply split_no_sep. now apply setting_text_no_semicolon.
  - unfold conn_str_of in *. simpl map in *. rewrite join_cons2.
    change (setting_text kv ++ ";" ++ join ";" (setting_text kv' :: map setting_text t))
      with (setting_text kv ++ String ";" (join ";" (setting_text kv' :: map setting_text t))).
    rewrite split_cons_segment by now apply setting_text_no_semicolon.
    f_equal. apply IH; [discriminate | exact Ht].
Qed.

Lemma conn_settings_conn_str_of (kvs : list (string * string)) :
  kvs <> [] -> forallb plain_setting kvs = true ->
  conn_settings (conn_str_of kvs) = map (fun kv => [kv.1; kv.2]) kvs.
Proof.
  intros Hne Hwf. unfold conn_settings.
  rewrite rstrip_conn_str_of, split_conn_str_of by assumption.
  rewrite map_map. clear Hne.
  induction kvs as [|kv t IH]; [reflexivity|].
  simpl in Hwf. apply andb_true_iff in Hwf as [Hkv Ht].
  simpl. rewrite (split1_setting_text _ Hkv), (IH Ht). reflexivity.
Qed.

Lemma parse_of_pairs (s : string) (kvs : list (string * string)) :
  conn_settings s = map (fun kv => [kv.1; kv.2]) kvs ->
  parse_blob_connection_str s = Ok (dict kvs).
Proof.
  intros H. unfold parse_blob_connection_str. rewrite H.
  assert (Hex : existsb (fun tup : list string => negb (length tup =? 2)%nat)
                  (map (fun kv : string * string => [kv.1; kv.2]) kvs) = false).
  { clear H. induction kvs as [|kv t IH]; [reflexivity | exact IH]. }
  rewrite Hex. f_equal. f_equal.
  clear. induction kvs as [|[k v] t IH]; [reflexivity|].
  simpl. f_equal. exact IH.
Qed.

Lemma conn_settings_trailing_semicolon (s : string) :
  conn_settings (s ++ ";") = conn_settings s.
Proof.
  unfold conn_settings. change (s ++ ";") with (s ++ str1 ";").
  now rewrite rstrip_snoc.
Qed.

(** The parser raises exactly when a segment has no [=]. *)
Lemma parse_raises_iff (s : string) :
  parse_blob_connection_str s
    = Raise (ValueError "Connection string is either blank or malformed.")
  <-> exists seg, In seg (split ";" (rstrip ";" s)) /\ mem "=" seg = false.
Proof.
  unfold parse_blob_connection_str, conn_settings.
  destruct (existsb _ _) eqn:Hex.
  - split; [intros _ | reflexivity].
    apply existsb_exists in Hex as [tup [Hin Hlen]].
    apply in_map_iff in Hin as [seg [<- Hin]].
    exists seg. split; [exact Hin|].
    rewrite split1_length in Hlen. destruct (mem "=" seg); [discriminate | reflexivity].
  - split; [discriminate|]. intros [seg [Hin Hmem]]. exfalso.
    assert (Hex' : existsb (fun tup : list string => negb (length tup =? 2)%nat)
                     (map (split1 "=") (split ";" (rstrip ";" s))) = true).
    { apply existsb_exists. exists (split1 "=" seg). split.
      - apply in_map. exact Hin.
      - rewrite split1_length, Hmem. reflexivity. }
    congruence.
Qed.

End Parser.

(** C4, as stated, fails: a segment with more than one [=] does not have
    exactly one [=], yet the parser accepts it, cutting at the first [=]
    only.  Here the account key ends in base64 padding. *)
Lemma C4_counterexample_padded_key :
  In "AccountKey=a2V5PQ==" (PyStr.split ";" "AccountName=acct;AccountKey=a2V5PQ==")
  /\ count_char "=" "AccountKey=a2V5PQ==" = 3
  /\ parse_blob_connection_str "AccountName=acct;AccountKey=a2V5PQ=="
     = Ok (dict [("AccountName", "acct"); ("AccountKey", "a2V5PQ==")]).
Proof.
  split; [right; left; reflexivity|].
  split; [reflexivity|].
  apply (parse_of_pairs _ [("AccountName", "acct"); ("AccountKey", "a2V5PQ==")]).
  reflexivity.
Qed.

(** C4, amended.  For every non-empty list of settings whose keys hold
    neither [=] nor [;] and whose values hold no [;], the text
    [K1=V1;...;Kn=Vn], with or without one trailing semicolon, parses to
    exactly the mapping of these settings.  And for every input, the parser
    raises the configuration error exactly when, once the trailing
    semicolons are stripped, some semicolon-separated segment holds no [=];
    a segment with several [=] is accepted and cut at the first one. *)
Theorem C4_parse_blob_connection_str_first_equals :
  (forall kvs : list (string * string),
      kvs <> [] -> forallb plain_setting kvs = true ->
      parse_blob_connection_str (conn_str_of kvs) = Ok (dict kvs)
      /\ parse_blob_connection_str (conn_str_of kvs ++ ";") = Ok (dict kvs))
  /\ (forall s : string,
        parse_blob_connection_str s
          = Raise (ValueError "Connection string is either blank or malformed.")
        <-> exists seg, In seg (PyStr.split ";" (PyStr.rstrip ";" s))
                        /\ PyStr.mem "=" seg = false).
Proof.
  split.
  - intros kvs Hne Hwf.
    pose proof (conn_settings_conn_str_of kvs Hne Hwf) as Hs.
    split; apply parse_of_pairs; [exact Hs|].
    now rewrite conn_settings_trailing_semicolon.
  - exact parse_raises_iff.
Qed.

Lemma C4_parse_blob_connection_str_first_equals_witness :
  parse_blob_connection_str "AccountName=acct;AccountKey=a2V5PQ=="
    = Ok (dict [("AccountName", "acct"); ("AccountKey", "a2V5PQ==")])
  /\ parse_blob_connection_str "AccountName=acct;AccountKey=a2V5PQ==;"
    = Ok (dict [("AccountName", "acct"); ("AccountKey", "a2V5PQ==")]).
Proof.
  apply (proj1 C4_parse_blob_connection_str_first_equals
           [("AccountName", "acct"); ("AccountKey", "a2V5PQ==")]).
  - discriminate.
  - reflexivity.
Defined.

(** ** The blob-staged loader and the trailing semicolon *)

Lemma with_trailing_slash_semicolon (s : string) :
  with_trailing_slash (s ++ ";") = Ok (s ++ ";/").
Proof.
  unfold with_trailing_slash.
  change (s ++ ";") with (s ++ str1 ";") at 1. rewrite last_char_snoc.
  simpl. now rewrite append_assoc.
Qed.

Lemma parse_semicolon_slash (s : string) :
  parse_blob_connection_str (s ++ ";/")
  = Raise (ValueError "Connection string is either blank or malformed.").
Proof.
  apply parse_raises_iff. exists "/". split; [|reflexivity].
  change (s ++ ";/") with (s ++ String ";" "/").
  replace (s ++ String ";" "/") with ((s ++ ";") ++ "/")
    by (now rewrite append_assoc).
  rewrite rstrip_app_fixed by (discriminate || reflexivity).
  rewrite append_assoc. change (";" ++ "/") with (String ";" "/").
  rewrite split_app_sep. apply in_or_app. right. left. reflexivity.
Qed.

(** C5: the code breaks the claim.  Whatever the descriptor, once it ends
    in a semicolon [bcpaz] appends a slash before parsing, the slash forms a
    segment of its own without [=], and the parsing step raises the
    configuration error: the load never completes. *)
Theorem C5_bcpaz_rejects_trailing_semicolon :
  forall (s : string),
    with_trailing_slash (s ++ ";") = Ok (s ++ ";/")
    /\ parse_blob_connection_str (s ++ ";/")
       = Raise (ValueError "Connection string is either blank or malformed.")
    /\ forall (E : Env) (sql_table : SqlTable) (flat_file : FlatFile)
              (container : string) (w : World),
         exists e, (bcpaz E sql_table flat_file (s ++ ";") container w).1 = Raise e.
Proof.
  intros s. split; [apply with_trailing_slash_semicolon|].
  split; [apply parse_semicolon_slash|].
  intros E sql_table flat_file container w.
  unfold bcpaz, bind, lift. rewrite with_trailing_slash_semicolon.
  destruct (from_connection_string E _ _ _) as [[]|e]; [|eexists; reflexivity].
  destruct (open_rb E _) as [data|e]; [|eexists; reflexivity].
  unfold upload_blob.
  destruct (blobs w !! _); [eexists; reflexivity|].
  rewrite parse_semicolon_slash. eexists; reflexivity.
Qed.

(** The same descriptor is accepted by the parser on its own, with and
    without the semicolon, and by [bcpaz]'s parsing step only without. *)
Example bcpaz_parse_step_example :
  parse_blob_connection_str "AccountName=acct;AccountKey=a2V5;"
    = parse_blob_connection_str "AccountName=acct;AccountKey=a2V5"
  /\ is_ok (bind_result (with_trailing_slash "AccountName=acct;AccountKey=a2V5")
              parse_blob_connection_str) = true
  /\ bind_result (with_trailing_slash "AccountName=acct;AccountKey=a2V5;")
       parse_blob_connection_str
     = Raise (ValueError "Connection string is either blank or malformed.").
Proof. repeat split; reflexivity. Qed.

(** ** The direct loader's failure message *)

Section BcpFailure.

Import PyStr.

Lemma escape_char_plain (q c : ascii) :
  q = SQUOTE \/ q = DQUOTE -> plain_char c = true ->
  PyRepr.escape_char false q c = str1 c.
Proof.
  intros [-> | ->];
    destruct c as [[] [] [] [] [] [] [] []]; intros H;
    solve [reflexivity | discriminate H].
Qed.

Lemma escape_plain (q : ascii) (s : string) :
  q = SQUOTE \/ q = DQUOTE -> plain_text s = true ->
  PyRepr.escape false q s = s.
Proof.
  intros Hq. induction s as [|c s IH]; simpl; [reflexivity|].
  intros H. apply andb_true_iff in H as [Hc Hs].
  rewrite (escape_char_plain q c Hq Hc), (IH Hs). reflexivity.
Qed.

(** A plain text is printed between single quotes, unchanged. *)
Lemma repr_plain (s : string) :
  plain_text s = true -> PyRepr.of_str s = "'" ++ s ++ "'".
Proof.
  intros H. unfold PyRepr.of_str, PyRepr.quoted.
  assert (Hq : PyRepr.quote_for s = SQUOTE).
  { unfold PyRepr.quote_for.
    assert (Hm : mem SQUOTE s = false).
    { clear -H. induction s as [|c s IH]; [reflexivity|].
      simpl in *. apply andb_true_iff in H as [Hc Hs]. rewrite (IH Hs).
      unfold plain_char in Hc.
      destruct (Ascii.eqb c SQUOTE); [|reflexivity].
      simpl in Hc. rewrite andb_false_r in Hc. discriminate. }
    now rewrite Hm. }
  rewrite Hq, escape_plain; [reflexivity | now left | exact H].
Qed.

Lemma join_holds_element (sep x : string) (l : list string) :
  In x l -> exists pre post, join sep l = pre ++ x ++ post.
Proof.
  induction l as [|y t IH]; [intros []|].
  destruct t as [|z t].
  - intros [<- | []]. exists EmptyString, EmptyString.
    simpl. now rewrite append_nil_r.
  - intros [<- | Hin].
    + exists EmptyString, (sep ++ join sep (z :: t)). reflexivity.
    + destruct (IH Hin) as [pre [post Heq]].
      exists (y ++ sep ++ pre), post.
      rewrite join_cons2, Heq. now rewrite !append_assoc.
Qed.

(** A plain argument shows up verbatim in the printed argument list. *)
Lemma repr_list_holds_plain (l : list (option string)) (s : string) :
  In (Some s) l -> plain_text s = true ->
  exists pre post, PyRepr.of_list l = pre ++ s ++ post.
Proof.
  intros Hin Hs. unfold PyRepr.of_list.
  destruct (join_holds_element ", " (PyRepr.of_str s) (map PyRepr.of_arg l))
    as [pre [post Heq]].
  { apply in_map_iff. exists (Some s). split; [reflexivity | exact Hin]. }
  rewrite Heq, (repr_plain s Hs).
  exists ("[" ++ pre ++ "'"), ("'" ++ post ++ "]").
  now rewrite !append_assoc.
Qed.

Lemma completed_process_str_holds_plain (r : CompletedProcess) (s : string) :
  In (Some s) (args r) -> plain_text s = true ->
  exists pre post, CompletedProcess_str r = pre ++ s ++ post.
Proof.
  intros Hin Hs.
  destruct (repr_list_holds_plain (args r) s Hin Hs) as [pre [post Heq]].
  unfold CompletedProcess_str. rewrite Heq. cbn [app].
  rewrite join_cons2.
  match goal with
  | |- context [join ", " ?l] => generalize (join ", " l)
  end.
  intros rest.
  exists ("CompletedProcess(" ++ "args=" ++ pre), (post ++ ", " ++ rest ++ ")").
  now rewrite !append_assoc.
Qed.

(** Without Kerberos the password is one of the arguments. *)
Lemma bcp_command_holds_password (E : Env) (sql_table : SqlTable)
    (flat_file : FlatFile) (batch_size : Z) (cmd : list (option string)) :
  with_krb_auth sql_table = false ->
  bcp_command E sql_table flat_file batch_size = Ok cmd ->
  In (password sql_table) cmd.
Proof.
  intros Hkrb. unfold bcp_command, bcp_auth. rewrite Hkrb.
  destruct (get_format_file_path flat_file) as [fmt|e]; simpl.
  - destruct (file_has_header_line flat_file); intros [= <-];
      simpl; tauto.
  - destruct (scrub_args E (password sql_table) (exn_args e)); discriminate.
Qed.

End BcpFailure.

(** The two failure paths side by side, on the sample table: [sqlcmd]
    prints the digest where the password stood, [bcp] prints the password. *)
Example sqlcmd_failure_message_is_scrubbed :
  sqlcmd (Sample.env Sample.exit_failed) "db.example.net" "dw" "select 1"
    (Some "loader") (Some "hunter2")
  = Raise (Exception
      ("Sqlcmd command failed. Details:" ++ str1 LF
       ++ "CompletedProcess(args=['sqlcmd', '-S', 'db.example.net', '-d', 'dw', "
       ++ "'-b', '-U', 'loader', '-P', 'sha512-of-7-bytes', '-I', '-s,', '-W', "
       ++ "'-Q', 'set nocount on;select 1'], returncode=1, stdout=b'', stderr=b"
       ++ str1 DQUOTE ++ "Login failed for user 'loader'." ++ str1 DQUOTE ++ ")")).
Proof. reflexivity. Qed.

Example bcp_failure_message_is_not_scrubbed :
  bcp (Sample.env Sample.exit_failed) Sample.sql_table Sample.flat_file 1000
  = Raise (Exception
      ("Bcp command failed. Details:" ++ str1 LF
       ++ "CompletedProcess(args=['bcp', 'dbo.sales', 'IN', '/data/in/sales.csv', "
       ++ "'-f', '/data/in/sales.fmt', '-S', 'db.example.net', '-d', 'dw', "
       ++ "'-b', '1000', '-U', 'loader', '-P', 'hunter2', '-F', '2', '-q', '-k'], "
       ++ "returncode=1, stderr=b"
       ++ str1 DQUOTE ++ "Login failed for user 'loader'." ++ str1 DQUOTE ++ ")")).
Proof. reflexivity. Qed.

(** C1: the code breaks the claim.  In a direct load without Kerberos whose
    password is plain text, a non-zero exit raises the load failure with
    the printed [CompletedProcess], argument list included, and nothing is
    replaced: the message holds the password verbatim. *)
Theorem C1_bcp_failure_message_holds_password :
  forall (E : Env) (sql_table : SqlTable) (flat_file : FlatFile)
         (batch_size : Z) (pw : string) (cmd : list (option string))
         (argv : list string) (p : ProcessExit),
    with_krb_auth sql_table = false ->
    password sql_table = Some pw ->
    plain_text pw = true ->
    bcp_command E sql_table flat_file batch_size = Ok cmd ->
    argv_strings cmd = Some argv ->
    spawn E argv = Ok p ->
    exit_code p <> 0%Z ->
    exists msg,
      bcp E sql_table flat_file batch_size = Raise (Exception msg)
      /\ PyStr.contains pw msg = true.
Proof.
  intros E sql_table flat_file batch_size pw cmd argv p
         Hkrb Hpw Hplain Hcmd Hargv Hspawn Hexit.
  pose proof (bcp_command_holds_password _ _ _ _ _ Hkrb Hcmd) as Hin.
  rewrite Hpw in Hin.
  unfold bcp. rewrite Hcmd. simpl bind_result.
  unfold subprocess_run. rewrite Hargv, Hspawn. simpl bind_result.
  cbn [returncode].
  destruct (Z.eqb_spec (exit_code p) 0) as [Hz|_]; [contradiction|].
  eexists. split; [reflexivity|].
  match goal with
  | |- context [CompletedProcess_str ?r] =>
      destruct (completed_process_str_holds_plain r pw Hin Hplain)
        as [pre [post Heq]]; rewrite Heq
  end.
  exact (contains_app_r pw ("Bcp command failed. Details:" ++ str1 LF ++ pre) post).
Qed.

Lemma C1_bcp_failure_message_holds_password_witness :
  exists msg,
    bcp (Sample.env Sample.exit_failed) Sample.sql_table Sample.flat_file 1000
      = Raise (Exception msg)
    /\ PyStr.contains "hunter2" msg = true.
Proof.
  eapply (C1_bcp_failure_message_holds_password
            (Sample.env Sample.exit_failed) Sample.sql_table Sample.flat_file
            1000 "hunter2");
    try reflexivity.
  discriminate.
Defined.

(** ** The direct loader's command line *)

(** C8: when the format-file path is available, a file with a header line
    gets the command followed by the header-skip arguments [-F 2 -q -k],
    and a file without one gets the command alone, nothing appended. *)
Theorem C8_bcp_header_skip_arguments :
  forall (E : Env) (sql_table : SqlTable) (flat_file : FlatFile)
         (batch_size : Z) (format_file : string),
    get_format_file_path flat_file = Ok format_file ->
    let base :=
      ([Some "bcp"; Some (full_table_string sql_table); Some "IN";
        Some (path flat_file); Some "-f"; Some format_file;
        Some "-S"; Some (server sql_table);
        Some "-d"; Some (database sql_table);
        Some "-b"; Some (PyStr.of_int batch_size)]
       ++ bcp_auth sql_table)%list in
    (file_has_header_line flat_file = true ->
     bcp_command E sql_table flat_file batch_size
     = Ok (base ++ [Some "-F"; Some "2"; Some "-q"; Some "-k"])%list)
    /\ (file_has_header_line flat_file = false ->
        bcp_command E sql_table flat_file batch_size = Ok base).
Proof.
  intros E sql_table flat_file batch_size format_file Hfmt base.
  unfold bcp_command. rewrite Hfmt. simpl bind_result.
  split; intros ->; reflexivity.
Qed.

Lemma C8_bcp_header_skip_arguments_witness :
  bcp_command (Sample.env Sample.exit_failed) Sample.sql_table
    Sample.flat_file 1000
  = Ok [Some "bcp"; Some "dbo.sales"; Some "IN"; Some "/data/in/sales.csv";
        Some "-f"; Some "/data/in/sales.fmt"; Some "-S"; Some "db.example.net";
        Some "-d"; Some "dw"; Some "-b"; Some "1000";
        Some "-U"; Some "loader"; Some "-P"; Some "hunter2";
        Some "-F"; Some "2"; Some "-q"; Some "-k"].
Proof.
  apply (proj1 (C8_bcp_header_skip_arguments
                  (Sample.env Sample.exit_failed) Sample.sql_table
                  Sample.flat_file 1000 "/data/in/sales.fmt" eq_refl)).
  reflexivity.
Defined.

(** ** The command runner *)

Lemma sqlcmd_argv_strings (l : list string) : argv_strings (map Some l) = Some l.
Proof.
  induction l as [|a l IH]; [reflexivity|]. simpl. now rewrite IH.
Qed.

(** What [sqlcmd] does once the client has exited with status 0. *)
Lemma sqlcmd_on_success (E : Env) (server database command : string)
    (username password : option string) (p : ProcessExit) :
  spawn E (sqlcmd_command server database command username password) = Ok p ->
  exit_code p = 0%Z ->
  sqlcmd E server database command username password
  = bind_result (decode_ascii (out_bytes p)) (fun output =>
      match
        Pandas.read_csv output [1]
          match PyStr.strip (readline output) with
          | EmptyString => HeaderNone
          | _ => HeaderInfer
          end
      with
      | Ok df => Ok (Some df)
      | Raise e =>
          match exn_cls e with
          | EmptyDataErrorC => Ok None
          | _ => Raise e
          end
      end).
Proof.
  intros Hspawn Hexit. unfold sqlcmd, subprocess_run.
  rewrite sqlcmd_argv_strings, Hspawn. simpl bind_result. cbn [returncode stdout].
  rewrite Hexit. reflexivity.
Qed.

(** C6: when the client succeeds and prints the header [colA,colB], the
    separator line [-,-] and the rows [1,x] and [2,y], the runner returns
    the table with columns [colA], [colB] and exactly these two rows; the
    first line is not blank, so it is taken as the header, and the line
    after it is skipped. *)
Theorem C6_sqlcmd_parses_worked_example :
  forall (E : Env) (server database command : string)
         (username password : option string) (p : ProcessExit),
    spawn E (sqlcmd_command server database command username password) = Ok p ->
    exit_code p = 0%Z ->
    out_bytes p = "colA,colB" ++ str1 LF ++ "-,-" ++ str1 LF
                  ++ "1,x" ++ str1 LF ++ "2,y" ++ str1 LF ->
    sqlcmd E server database command username password
    = Ok (Some {| columns := [ColName "colA"; ColName "colB"];
                  rows := [["1"; "x"]; ["2"; "y"]] |}).
Proof.
  intros E server database command username password p Hspawn Hexit Hout.
  rewrite (sqlcmd_on_success _ _ _ _ _ _ _ Hspawn Hexit), Hout.
  reflexivity.
Qed.

Lemma C6_sqlcmd_parses_worked_example_witness :
  sqlcmd (Sample.env (Sample.exit_ok Sample.table_output))
    "db.example.net" "dw" "select colA, colB from t" None None
  = Ok (Some {| columns := [ColName "colA"; ColName "colB"];
                rows := [["1"; "x"]; ["2"; "y"]] |}).
Proof.
  apply (C6_sqlcmd_parses_worked_example
           (Sample.env (Sample.exit_ok Sample.table_output))
           "db.example.net" "dw" "select colA, colB from t" None None
           (Sample.exit_ok Sample.table_output));
    reflexivity.
Defined.

(** C7: when the client succeeds and prints nothing, the runner returns
    the absent result [None] and does not raise. *)
Theorem C7_sqlcmd_empty_output_returns_none :
  forall (E : Env) (server database command : string)
         (username password : option string) (p : ProcessExit),
    spawn E (sqlcmd_command server database command username password) = Ok p ->
    exit_code p = 0%Z ->
    out_bytes p = EmptyString ->
    sqlcmd E server database command username password = Ok None.
Proof.
  intros E server database command username password p Hspawn Hexit Hout.
  rewrite (sqlcmd_on_success _ _ _ _ _ _ _ Hspawn Hexit), Hout.
  reflexivity.
Qed.

Lemma C7_sqlcmd_empty_output_returns_none_witness :
  sqlcmd (Sample.env (Sample.exit_ok EmptyString))
    "db.example.net" "dw" "truncate table t" (Some "loader") (Some "hunter2")
  = Ok None.
Proof.
  apply (C7_sqlcmd_empty_output_returns_none
           (Sample.env (Sample.exit_ok EmptyString))
           "db.example.net" "dw" "truncate table t"
           (Some "loader") (Some "hunter2") (Sample.exit_ok EmptyString));
    reflexivity.
Defined.

(** C10: when the password is absent, which makes the runner use
    integrated authentication whatever the user name, and the client exits
    with a non-zero status, the exception raised is the [ValueError] of
    [sha512], not the command failure with the scrubbed text. *)
Theorem C10_sqlcmd_integrated_auth_failure_raises_hash_error :
  forall (E : Env) (server database command : string)
         (username : option string) (p : ProcessExit),
    spawn E (sqlcmd_command server database command username None) = Ok p ->
    exit_code p <> 0%Z ->
    sqlcmd_auth username None = ["-E"]
    /\ sqlcmd E server database command username None
       = Raise (ValueError "Invalid input. Cannot compute hash.").
Proof.
  intros E server database command username p Hspawn Hexit.
  split.
  - unfold sqlcmd_auth. now rewrite orb_true_r.
  - unfold sqlcmd, subprocess_run.
    rewrite sqlcmd_argv_strings, Hspawn. simpl bind_result. cbn [returncode].
    destruct (Z.eqb_spec (exit_code p) 0) as [Hz|_]; [contradiction|].
    reflexivity.
Qed.

Lemma C10_sqlcmd_integrated_auth_failure_raises_hash_error_witness :
  sqlcmd (Sample.env Sample.exit_failed) "db.example.net" "dw" "select 1"
    None None
  = Raise (ValueError "Invalid input. Cannot compute hash.").
Proof.
  apply (C10_sqlcmd_integrated_auth_failure_raises_hash_error
           (Sample.env Sample.exit_failed) "db.example.net" "dw" "select 1"
           None Sample.exit_failed).
  - reflexivity.
  - discriminate.
Defined.

(** ** The blob-staged loader *)

Section Staged.

Variable E : Env.
Variable sql_table : SqlTable.
Variable flat_file : FlatFile.
Variables conn container_name : string.
Variable w : World.

Let blob_name : string := basename (path flat_file).

(** The statement [bcpaz] sends for a given token. *)
Let statement (token : string) : string :=
  copy_into_sql (schema sql_table) (table sql_table) container_name
    blob_name token.

Let load_event (token : string) : Event :=
  EvSqlcmd (server sql_table) (database sql_table) (statement token)
    (username sql_table) (password sql_table).

Lemma new_events_app (w' : World) (evs : list Event) :
  journal w' = (journal w ++ evs)%list -> new_events w w' = evs.
Proof. intros H. unfold new_events. rewrite H. apply drop_app_length. Qed.

(** Once staging has succeeded, the run is decided by the load statement. *)
Lemma bcpaz_after_staging (data name key token : string) :
  staging_succeeds E flat_file conn container_name w data name key token ->
  bcpaz E sql_table flat_file conn container_name w
  = match sqlcmd E (server sql_table) (database sql_table) (statement token)
            (username sql_table) (password sql_table) with
    | Ok _ =>
        (Ok tt,
         world_deleted container_name blob_name
           (world_loaded sql_table container_name blob_name data name key
              token w))
    | Raise e =>
        (Raise e,
         world_loaded sql_table container_name blob_name data name key token w)
    end.
Proof.
  intros (conn' & blob_conn & Hslash & Hclient & Hopen & Hfree & Hparse
          & Hname & Hkey & Hsign).
  unfold bcpaz, bind, lift.
  rewrite Hslash, Hclient, Hopen. unfold upload_blob. rewrite Hfree.
  rewrite Hparse. unfold getitem. rewrite Hname, Hkey.
  unfold datetime_now. cbn [clock record_event].
  unfold generate_container_sas. cbn [clock record_event].
  fold (staging_request name key container_name (clock w)). rewrite Hsign.
  unfold call_sqlcmd.
  fold blob_name. fold (statement token).
  destruct (sqlcmd E _ _ _ _ _) as [r|e]; [|reflexivity].
  unfold delete_blob. cbn [blobs record_event].
  rewrite lookup_insert_eq. reflexivity.
Qed.

Lemma new_events_loaded (data name key token : string) :
  new_events w
    (world_loaded sql_table container_name blob_name data name key token w)
  = [EvUpload container_name blob_name data;
     EvSas (staging_request name key container_name (clock w)) token (clock w);
     load_event token].
Proof. apply new_events_app. cbn. now rewrite <- !app_assoc. Qed.

Lemma new_events_deleted (data name key token : string) :
  new_events w
    (world_deleted container_name blob_name
       (world_loaded sql_table container_name blob_name data name key token w))
  = [EvUpload container_name blob_name data;
     EvSas (staging_request name key container_name (clock w)) token (clock w);
     load_event token;
     EvDelete container_name blob_name].
Proof. apply new_events_app. cbn. now rewrite <- !app_assoc. Qed.

(** A run that does not get through staging journals at most the upload. *)
Lemma bcpaz_cases :
  (exists e, (bcpaz E sql_table flat_file conn container_name w).1 = Raise e
             /\ (new_events w (bcpaz E sql_table flat_file conn container_name w).2 = []
                 \/ exists data,
                      new_events w (bcpaz E sql_table flat_file conn container_name w).2
                      = [EvUpload container_name blob_name data]))
  \/ exists data name key token,
       staging_succeeds E flat_file conn container_name w data name key token.
Proof.
  assert (Hnil : forall w0 : World, journal w0 = journal w -> new_events w w0 = []).
  { intros w0 H. apply new_events_app. now rewrite app_nil_r. }
  unfold staging_succeeds, bcpaz, bind, lift.
  destruct (with_trailing_slash conn) as [conn'|e];
    [|left; exists e; split; [reflexivity | left; now apply Hnil]].
  destruct (from_connection_string E conn' _ _) as [[]|e] eqn:Hclient;
    [|left; exists e; split; [reflexivity | left; now apply Hnil]].
  destruct (open_rb E _) as [data|e] eqn:Hopen;
    [|left; exists e; split; [reflexivity | left; now apply Hnil]].
  unfold upload_blob.
  destruct (blobs w !! _) as [old|] eqn:Hfree;
    [left; eexists; split; [reflexivity | left; now apply Hnil]|].
  assert (Hup : forall w0 : World,
             journal w0 = (journal w ++ [EvUpload container_name blob_name data])%list ->
             new_events w w0 = [EvUpload container_name blob_name data]).
  { intros w0 H. now apply new_events_app. }
  destruct (parse_blob_connection_str conn') as [blob_conn|e] eqn:Hparse;
    [|left; exists e; split; [reflexivity | right; exists data; now apply Hup]].
  unfold getitem.
  destruct (blob_conn !! "AccountName") as [name|] eqn:Hname;
    [|left; eexists; split; [reflexivity | right; exists data; now apply Hup]].
  destruct (blob_conn !! "AccountKey") as [key|] eqn:Hkey;
    [|left; eexists; split; [reflexivity | right; exists data; now apply Hup]].
  unfold datetime_now, generate_container_sas. cbn [clock record_event].
  fold (staging_request name key container_name (clock w)).
  destruct (sign_container_sas E _) as [token|e] eqn:Hsign;
    [|left; exists e; split; [reflexivity | right; exists data; now apply Hup]].
  right. exists data, name, key, token, conn', blob_conn.
  repeat split; assumption.
Qed.

(** The events of a run that got through staging. *)
Lemma bcpaz_new_events (data name key token : string) :
  staging_succeeds E flat_file conn container_name w data name key token ->
  exists tail,
    new_events w (bcpaz E sql_table flat_file conn container_name w).2
    = ([EvUpload container_name blob_name data;
        EvSas (staging_request name key container_name (clock w)) token (clock w);
        load_event token] ++ tail)%list
    /\ (tail = [] \/ tail = [EvDelete container_name blob_name]).
Proof.
  intros Hst. rewrite (bcpaz_after_staging _ _ _ _ Hst).
  destruct (sqlcmd E _ _ _ _ _) as [r|e].
  - exists [EvDelete container_name blob_name]. split; [|now right].
    apply new_events_deleted.
  - exists []. split; [|now left]. apply new_events_loaded.
Qed.

End Staged.

(** C2: once the upload and the credential generation have succeeded, a
    load statement that succeeds is followed by the deletion of the staged
    blob, the last call of the run, and the blob is gone; a load statement
    that raises ends the run with that exception, no deletion is issued and
    the staged blob stays in the container with its bytes. *)
Theorem C2_bcpaz_deletes_blob_only_after_successful_load :
  forall (E : Env) (sql_table : SqlTable) (flat_file : FlatFile)
         (conn container_name : string) (w : World)
         (data name key token : string),
    staging_succeeds E flat_file conn container_name w data name key token ->
    let blob_name := basename (path flat_file) in
    let sql := copy_into_sql (schema sql_table) (table sql_table)
                 container_name blob_name token in
    let load := sqlcmd E (server sql_table) (database sql_table) sql
                  (username sql_table) (password sql_table) in
    let staged :=
      [EvUpload container_name blob_name data;
       EvSas (staging_request name key container_name (clock w)) token (clock w);
       EvSqlcmd (server sql_table) (database sql_table) sql
         (username sql_table) (password sql_table)] in
    let run := bcpaz E sql_table flat_file conn container_name w in
    (forall r, load = Ok r ->
       run.1 = Ok tt
       /\ new_events w run.2 = (staged ++ [EvDelete container_name blob_name])%list
       /\ blobs run.2 !! (container_name, blob_name) = None)
    /\ (forall e, load = Raise e ->
          run.1 = Raise e
          /\ new_events w run.2 = staged
          /\ ~ In (EvDelete container_name blob_name) (new_events w run.2)
          /\ blobs run.2 !! (container_name, blob_name) = Some data).
Proof.
  intros E sql_table flat_file conn container_name w data name key token Hst
         blob_name sql load staged run.
  pose proof (bcpaz_after_staging E sql_table flat_file conn container_name w
                data name key token Hst) as Hrun.
  pose proof (new_events_loaded sql_table flat_file container_name w
                data name key token) as Hloaded.
  pose proof (new_events_deleted sql_table flat_file container_name w
                data name key token) as Hdeleted.
  subst run load staged sql blob_name. cbv zeta in *.
  split.
  - intros r Hload. rewrite Hrun, Hload.
    split; [reflexivity|]. split; [exact Hdeleted|].
    cbn. apply lookup_delete_eq.
  - intros e Hload. rewrite Hrun, Hload. cbn [snd fst].
    split; [reflexivity|]. split; [exact Hloaded|]. split.
    + rewrite Hloaded. simpl. intros [H|[H|[H|[]]]]; discriminate H.
    + cbn. apply lookup_insert_eq.
Qed.

Lemma sample_staging (p : ProcessExit) :
  staging_succeeds (Sample.env p) Sample.flat_file Sample.conn_str "stage"
    Sample.world Sample.file_bytes "acct" "a2V5/" "sr=c&sp=racwdxt&sig=acct".
Proof.
  exists "AccountName=acct;AccountKey=a2V5/",
         (dict [("AccountName", "acct"); ("AccountKey", "a2V5/")]).
  repeat split; reflexivity.
Defined.

Lemma C2_bcpaz_deletes_blob_only_after_successful_load_witness :
  (let run := bcpaz (Sample.env (Sample.exit_ok EmptyString)) Sample.sql_table
                Sample.flat_file Sample.conn_str "stage" Sample.world in
   run.1 = Ok tt /\ blobs run.2 !! ("stage", "sales.csv") = None)
  /\ (let run := bcpaz (Sample.env Sample.exit_failed) Sample.sql_table
                   Sample.flat_file Sample.conn_str "stage" Sample.world in
      is_ok run.1 = false
      /\ blobs run.2 !! ("stage", "sales.csv") = Some Sample.file_bytes).
Proof.
  split.
  - destruct (C2_bcpaz_deletes_blob_only_after_successful_load
                (Sample.env (Sample.exit_ok EmptyString)) Sample.sql_table
                Sample.flat_file Sample.conn_str "stage" Sample.world
                Sample.file_bytes "acct" "a2V5/" "sr=c&sp=racwdxt&sig=acct"
                (sample_staging _)) as [Hok _].
    destruct (Hok None eq_refl) as (Hres & _ & Hgone).
    split; [exact Hres | exact Hgone].
  - destruct (C2_bcpaz_deletes_blob_only_after_successful_load
                (Sample.env Sample.exit_failed) Sample.sql_table
                Sample.flat_file Sample.conn_str "stage" Sample.world
                Sample.file_bytes "acct" "a2V5/" "sr=c&sp=racwdxt&sig=acct"
                (sample_staging _)) as [_ Hfail].
    edestruct Hfail as (Hres & _ & _ & Hkept); [reflexivity|].
    split; [now rewrite Hres | exact Hkept].
Defined.

(** The [FROM] clause sits in the statement whatever the token is. *)
Lemma copy_into_sql_from_clause
    (schema_name table_name container_name blob_name sas : string) :
  PyStr.contains
    ("FROM 'https://arcturusdevstgacc.blob.core.windows.net/"
     ++ container_name ++ "/" ++ blob_name ++ "'")
    (copy_into_sql schema_name table_name container_name blob_name sas) = true.
Proof.
  unfold copy_into_sql, blob_url.
  match goal with
  | |- PyStr.contains ?needle _ = true =>
      etransitivity;
      [| exact (contains_app_r needle
                  (str1 LF ++ "    COPY INTO [" ++ schema_name ++ "].["
                   ++ table_name ++ "]" ++ str1 LF ++ "    ")
                  (str1 LF
                   ++ "    WITH (" ++ str1 LF
                   ++ "        FILE_TYPE = 'CSV'," ++ str1 LF
                   ++ "        CREDENTIAL=(IDENTITY= 'Shared Access Signature', SECRET='"
                   ++ sas ++ "')," ++ str1 LF
                   ++ "        FIELDQUOTE = '" ++ str1 DQUOTE ++ "'," ++ str1 LF
                   ++ "        FIELDTERMINATOR=','," ++ str1 LF
                   ++ "        FIRSTROW=2, -- Skip header" ++ str1 LF
                   ++ "        ROWTERMINATOR='0X0A'," ++ str1 LF
                   ++ "        ENCODING = 'UTF8'," ++ str1 LF
                   ++ "        MAXERRORS = 0," ++ str1 LF
                   ++ "        ERRORFILE = '/errorsfolder_" ++ blob_name
                   ++ "' --path starting from the storage container" ++ str1 LF
                   ++ "    )" ++ str1 LF
                   ++ "    "))]
  end.
  f_equal. rewrite !append_assoc. reflexivity.
Qed.

(** C9: whatever connection descriptor a run of [bcpaz] is given, the
    statement it hands to the command runner loads from
    [https://arcturusdevstgacc.blob.core.windows.net/<container>/<blob>]:
    the host is fixed, and of the caller's values only the container name
    and the blob name enter the address. *)
Theorem C9_bcpaz_statement_uses_fixed_host :
  forall (E : Env) (sql_table : SqlTable) (flat_file : FlatFile)
         (conn container_name : string) (w : World)
         (srv db command : string) (user pw : option string),
    In (EvSqlcmd srv db command user pw)
       (new_events w (bcpaz E sql_table flat_file conn container_name w).2) ->
    (exists sas,
        command = copy_into_sql (schema sql_table) (table sql_table)
                    container_name (basename (path flat_file)) sas)
    /\ PyStr.contains
         ("FROM 'https://arcturusdevstgacc.blob.core.windows.net/"
          ++ container_name ++ "/" ++ basename (path flat_file) ++ "'")
         command = true.
Proof.
  intros E sql_table flat_file conn container_name w srv db command user pw Hin.
  assert (Hsql : exists sas,
             command = copy_into_sql (schema sql_table) (table sql_table)
                         container_name (basename (path flat_file)) sas).
  { destruct (bcpaz_cases E sql_table flat_file conn container_name w)
      as [(e & _ & [Hnil | (data & Hup)]) | (data & name & key & token & Hst)].
    - rewrite Hnil in Hin. destruct Hin.
    - rewrite Hup in Hin. destruct Hin as [H|[]]. discriminate H.
    - destruct (bcpaz_new_events E sql_table _ _ _ _ _ _ _ _ Hst)
        as (tail & Hev & Htail).
      rewrite Hev in Hin. exists token.
      destruct Htail as [-> | ->]; simpl in Hin;
        repeat (destruct Hin as [Hin|Hin]; try discriminate Hin);
        try (injection Hin as _ _ <- _ _; reflexivity);
        destruct Hin. }
  split; [exact Hsql|].
  destruct Hsql as [sas ->]. apply copy_into_sql_from_clause.
Qed.

Lemma C9_bcpaz_statement_uses_fixed_host_witness :
  exists command : string,
    In (EvSqlcmd "db.example.net" "dw" command (Some "loader") (Some "hunter2"))
       (new_events Sample.world
          (bcpaz (Sample.env (Sample.exit_ok EmptyString)) Sample.sql_table
             Sample.flat_file Sample.conn_str "stage" Sample.world).2)
    /\ PyStr.contains
         "FROM 'https://arcturusdevstgacc.blob.core.windows.net/stage/sales.csv'"
         command = true.
Proof.
  eexists. 
  assert (Hin : In (EvSqlcmd "db.example.net" "dw"
                      (copy_into_sql "dbo" "sales" "stage" "sales.csv"
                         "sr=c&sp=racwdxt&sig=acct")
                      (Some "loader") (Some "hunter2"))
                   (new_events Sample.world
                      (bcpaz (Sample.env (Sample.exit_ok EmptyString))
                         Sample.sql_table Sample.flat_file Sample.conn_str
                         "stage" Sample.world).2)).
  { right. right. left. reflexivity. }
  split; [exact Hin|].
  exact (proj2 (C9_bcpaz_statement_uses_fixed_host _ _ _ _ _ _ _ _ _ _ _ Hin)).
Defined.

(** * Further properties of the module *)

(** ** More on [parse_blob_connection_str] *)

Section ParserMore.

Import PyStr.

Lemma rstrip_idempotent (c : ascii) (s : string) :
  rstrip c (rstrip c s) = rstrip c s.
Proof.
  induction s as [|a s IH]; simpl; [reflexivity|].
  destruct (rstrip c s) as [|b t] eqn:Ht.
  - destruct (Ascii.eqb a c) eqn:Hac; simpl; [reflexivity|].
    now rewrite Hac.
  - simpl in IH |- *. now rewrite IH.
Qed.

Lemma split_pieces_no_sep (c : ascii) (s seg : string) :
  In seg (split c s) -> mem c seg = false.
Proof.
  revert seg. induction s as [|a s IH]; simpl; intros seg.
  - intros [<- | []]. reflexivity.
  - destruct (Ascii.eqb a c) eqn:Hac.
    + intros [<- | Hin]; [reflexivity | now apply IH].
    + destruct (split c s) as [|h t] eqn:Hs.
      * intros [<- | []]. simpl. now rewrite Hac.
      * intros [<- | Hin].
        -- simpl. rewrite Hac. apply IH. now left.
        -- apply IH. now right.
Qed.

(** Two pieces out of [split(sep, 1)] give the text back. *)
Lemma split1_two (c : ascii) (s k v : string) :
  split1 c s = [k; v] -> s = k ++ String c v /\ mem c k = false.
Proof.
  revert k. induction s as [|a s IH]; simpl; intros k; [discriminate|].
  destruct (Ascii.eqb_spec a c) as [-> | Hne].
  - intros [= <- <-]. split; reflexivity.
  - destruct (split1 c s) as [|h t] eqn:Hs; [discriminate|].
    intros [= <- ->]. destruct (IH h eq_refl) as [-> Hk].
    split; [reflexivity|]. simpl. rewrite Hk.
    destruct (Ascii.eqb_spec a c); [contradiction | reflexivity].
Qed.

Lemma dict_snoc (l : list (string * string)) (k v : string) :
  dict (l ++ [(k, v)]) = <[k := v]> (dict l).
Proof. unfold dict. now rewrite foldl_snoc. Qed.

Lemma dict_lookup_in (l : list (string * string)) (k v : string) :
  dict l !! k = Some v -> In (k, v) l.
Proof.
  induction l as [|[k' v'] l IH] using rev_ind; [discriminate|].
  rewrite dict_snoc. intros H. apply in_or_app.
  destruct (decide (k' = k)) as [-> | Hne].
  - rewrite lookup_insert_eq in H. injection H as ->. right. now left.
  - rewrite lookup_insert_ne in H by exact Hne. left. now apply IH.
Qed.

(** The value kept for a key is that of its last occurrence. *)
Lemma dict_lookup_last (l1 l2 : list (string * string)) (k v : string) :
  ~ In k (map fst l2) -> dict (l1 ++ (k, v) :: l2) !! k = Some v.
Proof.
  induction l2 as [|[k' v'] l2 IH] using rev_ind; intros Hnot.
  - rewrite dict_snoc. apply lookup_insert_eq.
  - rewrite map_app, in_app_iff in Hnot. simpl in Hnot.
    replace (l1 ++ (k, v) :: l2 ++ [(k', v')])%list
      with ((l1 ++ (k, v) :: l2) ++ [(k', v')])%list
      by (now rewrite <- app_assoc).
    rewrite dict_snoc, lookup_insert_ne by tauto.
    apply IH. tauto.
Qed.

Lemma dict_not_empty (l : list (string * string)) : l <> [] -> dict l <> ∅.
Proof.
  destruct l as [|kv l] using rev_ind; [congruence|]. intros _.
  destruct kv as [k v]. rewrite dict_snoc. apply insert_non_empty.
Qed.

(** When no tuple is rejected, each one is a pair. *)
Lemma settings_all_pairs (settings : list (list string)) :
  existsb (fun tup : list string => negb (length tup =? 2)%nat) settings = false ->
  map (fun kv : string * string => [kv.1; kv.2]) (omap as_pair settings)
  = settings.
Proof.
  induction settings as [|tup t IH]; [reflexivity|].
  simpl. intros H. apply orb_false_iff in H as [Htup Ht].
  destruct tup as [|k [|v [|x r]]]; try discriminate Htup.
  simpl. f_equal. exact (IH Ht).
Qed.

Lemma parse_ok_inv (s : string) (m : gmap string string) :
  parse_blob_connection_str s = Ok m ->
  m = dict (omap as_pair (conn_settings s))
  /\ map (fun kv : string * string => [kv.1; kv.2])
         (omap as_pair (conn_settings s)) = conn_settings s.
Proof.
  unfold parse_blob_connection_str.
  destruct (existsb _ _) eqn:Hex; [discriminate|].
  intros [= <-]. split; [reflexivity | now apply settings_all_pairs].
Qed.

End ParserMore.

(** X1: trailing semicolons do not matter to the parser, however many there
    are: the outcome is that of the stripped text, and one more semicolon
    at the end changes nothing. *)
Theorem X1_parse_ignores_trailing_semicolons :
  forall s : string,
    parse_blob_connection_str (PyStr.rstrip ";" s) = parse_blob_connection_str s
    /\ parse_blob_connection_str (s ++ ";") = parse_blob_connection_str s.
Proof.
  intros s. unfold parse_blob_connection_str. split.
  - unfold conn_settings. now rewrite rstrip_idempotent.
  - now rewrite conn_settings_trailing_semicolon.
Qed.

(** X2: a semicolon at the start is never tolerated: every text that begins
    with one, and the empty text, raise the configuration error. *)
Theorem X2_parse_rejects_blank_and_leading_semicolon :
  parse_blob_connection_str EmptyString
    = Raise (ValueError "Connection string is either blank or malformed.")
  /\ forall s : string,
       parse_blob_connection_str (String ";" s)
       = Raise (ValueError "Connection string is either blank or malformed.").
Proof.
  split; [reflexivity|].
  intros s. apply parse_raises_iff. exists EmptyString. split; [|reflexivity].
  simpl. destruct (PyStr.rstrip ";" s) as [|b t]; simpl; now left.
Qed.

(** X3: a successful parse never returns the empty mapping. *)
Theorem X3_parse_result_not_empty :
  forall (s : string) (m : gmap string string),
    parse_blob_connection_str s = Ok m -> m <> ∅.
Proof.
  intros s m H. destruct (parse_ok_inv s m H) as [-> Hpairs].
  apply dict_not_empty. intros Hnil. rewrite Hnil in Hpairs.
  unfold conn_settings in Hpairs.
  destruct (PyStr.split ";" (PyStr.rstrip ";" s)) eqn:Hs; [|discriminate].
  now apply split_not_nil in Hs.
Qed.

Lemma X3_parse_result_not_empty_witness :
  dict [("AccountName", "acct"); ("AccountKey", "a2V5")] <> ∅.
Proof.
  apply (X3_parse_result_not_empty "AccountName=acct;AccountKey=a2V5").
  reflexivity.
Defined.

(** X4: every entry of a parsed mapping comes from a segment [key=value] of
    the stripped text, cut at its first [=]: the key holds no [=], and
    neither the key nor the value holds a [;]. *)
Theorem X4_parse_entries_come_from_segments :
  forall (s : string) (m : gmap string string) (k v : string),
    parse_blob_connection_str s = Ok m ->
    m !! k = Some v ->
    In (k ++ "=" ++ v) (PyStr.split ";" (PyStr.rstrip ";" s))
    /\ PyStr.mem "=" k = false
    /\ PyStr.mem ";" k = false
    /\ PyStr.mem ";" v = false.
Proof.
  intros s m k v Hparse Hlookup.
  destruct (parse_ok_inv s m Hparse) as [-> Hpairs].
  apply dict_lookup_in in Hlookup.
  assert (Htup : In [k; v] (conn_settings s)).
  { rewrite <- Hpairs. apply in_map_iff. exists (k, v). now split. }
  unfold conn_settings in Htup. apply in_map_iff in Htup as [seg [Hcut Hseg]].
  apply split1_two in Hcut as [-> Hk].
  pose proof (split_pieces_no_sep _ _ _ Hseg) as Hsemi.
  rewrite mem_app in Hsemi. apply orb_false_iff in Hsemi as [Hsk Hsv].
  simpl in Hsv.
  repeat split; assumption.
Qed.

Lemma X4_parse_entries_come_from_segments_witness :
  In "AccountKey=a2V5PQ=="
     (PyStr.split ";" (PyStr.rstrip ";" "AccountName=acct;AccountKey=a2V5PQ==;;"))
  /\ PyStr.mem "=" "AccountKey" = false
  /\ PyStr.mem ";" "AccountKey" = false
  /\ PyStr.mem ";" "a2V5PQ==" = false.
Proof.
  apply (X4_parse_entries_come_from_segments
           "AccountName=acct;AccountKey=a2V5PQ==;;"
           (dict [("AccountName", "acct"); ("AccountKey", "a2V5PQ==")])
           "AccountKey" "a2V5PQ==");
    reflexivity.
Defined.

(** X5: when a key occurs several times, the mapping keeps the value of its
    last occurrence. *)
Theorem X5_parse_last_duplicate_wins :
  forall (before after : list (string * string)) (k v : string),
    forallb plain_setting (before ++ (k, v) :: after) = true ->
    ~ In k (map fst after) ->
    exists m,
      parse_blob_connection_str (conn_str_of (before ++ (k, v) :: after)) = Ok m
      /\ m !! k = Some v.
Proof.
  intros before after k v Hplain Hnot.
  exists (dict (before ++ (k, v) :: after)). split.
  - apply parse_of_pairs, conn_settings_conn_str_of; [|exact Hplain].
    destruct before; discriminate.
  - now apply dict_lookup_last.
Qed.

Lemma X5_parse_last_duplicate_wins_witness :
  exists m,
    parse_blob_connection_str "AccountKey=old;AccountName=acct;AccountKey=new"
      = Ok m
    /\ m !! "AccountKey" = Some "new".
Proof.
  apply (X5_parse_last_duplicate_wins
           [("AccountKey", "old"); ("AccountName", "acct")] []
           "AccountKey" "new").
  - reflexivity.
  - intros [].
Defined.

(** ** More on [bcpaz] *)

Section StagedMore.

Variable E : Env.
Variable sql_table : SqlTable.
Variable flat_file : FlatFile.
Variables conn container_name : string.
Variable w : World.

Let blob_name : string := basename (path flat_file).

(** A run either stops before the upload, leaving the world as it was, or
    gets through the upload. *)
Lemma bcpaz_upload_cases :
  (exists e, bcpaz E sql_table flat_file conn container_name w = (Raise e, w))
  \/ exists conn' data,
       upload_succeeds E flat_file conn container_name w conn' data.
Proof.
  unfold upload_succeeds, bcpaz, bind, lift.
  destruct (with_trailing_slash conn) as [conn'|e]; [|left; now exists e].
  destruct (from_connection_string E conn' _ _) as [[]|e] eqn:Hclient;
    [|left; now exists e].
  destruct (open_rb E _) as [data|e] eqn:Hopen; [|left; now exists e].
  unfold upload_blob.
  destruct (blobs w !! _) as [old|] eqn:Hfree; [left; eexists; reflexivity|].
  right. exists conn', data. repeat split; assumption.
Qed.

(** After the upload, the run is decided by the parse, the two lookups, the
    signing and the load statement, in this order. *)
Lemma bcpaz_after_upload (conn' data : string) :
  upload_succeeds E flat_file conn container_name w conn' data ->
  bcpaz E sql_table flat_file conn container_name w
  = let wu := world_uploaded container_name blob_name data w in
    match parse_blob_connection_str conn' with
    | Raise e => (Raise e, wu)
    | Ok blob_conn =>
        match blob_conn !! "AccountName" with
        | None => (Raise (KeyError "AccountName"), wu)
        | Some name =>
            match blob_conn !! "AccountKey" with
            | None => (Raise (KeyError "AccountKey"), wu)
            | Some key =>
                match sign_container_sas E
                        (staging_request name key container_name (clock w)) with
                | Raise e => (Raise e, wu)
                | Ok token =>
                    let wl := world_loaded sql_table container_name blob_name
                                data name key token w in
                    match sqlcmd E (server sql_table) (database sql_table)
                            (copy_into_sql (schema sql_table) (table sql_table)
                               container_name blob_name token)
                            (username sql_table) (password sql_table) with
                    | Ok _ => (Ok tt, world_deleted container_name blob_name wl)
                    | Raise e => (Raise e, wl)
                    end
                end
            end
        end
    end.
Proof.
  intros (Hslash & Hclient & Hopen & Hfree).
  destruct (parse_blob_connection_str conn') as [blob_conn|e] eqn:Hparse.
  2:{ unfold bcpaz, bind, lift. rewrite Hslash, Hclient, Hopen.
      unfold upload_blob. rewrite Hfree, Hparse. reflexivity. }
  destruct (blob_conn !! "AccountName") as [name|] eqn:Hname.
  2:{ unfold bcpaz, bind, lift. rewrite Hslash, Hclient, Hopen.
      unfold upload_blob. rewrite Hfree, Hparse. unfold getitem.
      rewrite Hname. reflexivity. }
  destruct (blob_conn !! "AccountKey") as [key|] eqn:Hkey.
  2:{ unfold bcpaz, bind, lift. rewrite Hslash, Hclient, Hopen.
      unfold upload_blob. rewrite Hfree, Hparse. unfold getitem.
      rewrite Hname, Hkey. reflexivity. }
  destruct (sign_container_sas E _) as [token|e] eqn:Hsign.
  2:{ unfold bcpaz, bind, lift. rewrite Hslash, Hclient, Hopen.
      unfold upload_blob. rewrite Hfree, Hparse. unfold getitem.
      rewrite Hname, Hkey. unfold datetime_now, generate_container_sas.
      cbn [clock record_event].
      fold (staging_request name key container_name (clock w)).
      rewrite Hsign. reflexivity. }
  cbv zeta.
  apply (bcpaz_after_staging E sql_table flat_file conn container_name w
           data name key token).
  exists conn', blob_conn. repeat split; assumption.
Qed.

Lemma blobs_world_uploaded (data : string) (key : string * string) :
  blobs (world_uploaded container_name blob_name data w) !! key
  = if decide ((container_name, blob_name) = key) then Some data
    else blobs w !! key.
Proof. cbn. apply lookup_insert. Qed.

Lemma blobs_world_loaded (data name k token : string) (key : string * string) :
  blobs (world_loaded sql_table container_name blob_name data name k token w)
    !! key
  = if decide ((container_name, blob_name) = key) then Some data
    else blobs w !! key.
Proof. cbn. apply lookup_insert. Qed.

Lemma blobs_world_deleted (data name k token : string) (key : string * string) :
  blobs (world_deleted container_name blob_name
           (world_loaded sql_table container_name blob_name data name k token w))
    !! key
  = if decide ((container_name, blob_name) = key) then None
    else blobs w !! key.
Proof.
  cbn. rewrite lookup_delete. destruct (decide _); [reflexivity|].
  now rewrite lookup_insert_ne.
Qed.

Lemma new_events_same : new_events w w = [].
Proof. apply new_events_app. now rewrite app_nil_r. Qed.

Lemma new_events_uploaded (data : string) :
  new_events w (world_uploaded container_name blob_name data w)
  = [EvUpload container_name blob_name data].
Proof. now apply new_events_app. Qed.

Lemma bcpaz_outcome :
  outcome E sql_table flat_file conn container_name w
    (bcpaz E sql_table flat_file conn container_name w).
Proof.
  destruct bcpaz_upload_cases as [[e ->] | (conn' & data & Hup)];
    [constructor|].
  rewrite (bcpaz_after_upload conn' data Hup). cbv zeta.
  pose proof Hup as (Hslash & Hclient & Hopen & Hfree).
  destruct (parse_blob_connection_str conn') as [blob_conn|e] eqn:Hparse;
    [|now constructor].
  destruct (blob_conn !! "AccountName") as [name|] eqn:Hname;
    [|now constructor].
  destruct (blob_conn !! "AccountKey") as [key|] eqn:Hkey;
    [|now constructor].
  destruct (sign_container_sas E _) as [token|e] eqn:Hsign;
    [|now constructor].
  assert (Hst : staging_succeeds E flat_file conn container_name w
                  data name key token).
  { exists conn', blob_conn. repeat split; assumption. }
  destruct (sqlcmd E _ _ _ _ _) as [r|e]; now constructor.
Qed.

End StagedMore.

Ltac by_outcome E sql_table flat_file conn container_name w :=
  generalize (bcpaz_outcome E sql_table flat_file conn container_name w);
  generalize (bcpaz E sql_table flat_file conn container_name w);
  let run := fresh "run" in
  let H := fresh "Hout" in
  intros run H; destruct H.

Lemma last_char_some (s : string) :
  s <> EmptyString -> exists c, PyStr.last_char s = Some c.
Proof.
  induction s as [|a s IH]; [congruence|]. intros _.
  destruct s as [|b s]; [now exists a|].
  destruct IH as [c Hc]; [discriminate|]. exists c. exact Hc.
Qed.

(** X7: [bcpaz] never overwrites: when the container already holds a blob
    with the file's base name, the run raises and leaves the world, that
    blob included, exactly as it was. *)
Theorem X7_bcpaz_never_overwrites_existing_blob :
  forall (E : Env) (sql_table : SqlTable) (flat_file : FlatFile)
         (conn container_name : string) (w : World) (old : string),
    blobs w !! (container_name, basename (path flat_file)) = Some old ->
    exists e,
      bcpaz E sql_table flat_file conn container_name w = (Raise e, w).
Proof.
  intros E sql_table flat_file conn container_name w old Hold.
  destruct (bcpaz_upload_cases E sql_table flat_file conn container_name w)
    as [He | (conn' & data & _ & _ & _ & Hfree)]; [exact He|].
  congruence.
Qed.

Lemma X7_bcpaz_never_overwrites_existing_blob_witness :
  let w := {| blobs := {[ ("stage", "sales.csv") := "kept" ]};
              clock := 0; journal := [] |} in
  exists e,
    bcpaz (Sample.env (Sample.exit_ok EmptyString)) Sample.sql_table
      Sample.flat_file Sample.conn_str "stage" w = (Raise e, w).
Proof.
  intros w.
  apply (X7_bcpaz_never_overwrites_existing_blob
           (Sample.env (Sample.exit_ok EmptyString)) Sample.sql_table
           Sample.flat_file Sample.conn_str "stage" w "kept").
  reflexivity.
Defined.

(** X9: the staged blob is removed by a run that returns and by no other.
    A run that returns leaves no blob under the file's name and its last
    call is the deletion; a run that raises either changed nothing or left
    the file's bytes staged under that name, and issued no deletion. *)
Theorem X9_bcpaz_cleans_up_only_on_return :
  forall (E : Env) (sql_table : SqlTable) (flat_file : FlatFile)
         (conn container_name : string) (w : World),
    let blob_name := basename (path flat_file) in
    let run := bcpaz E sql_table flat_file conn container_name w in
    match run.1 with
    | Ok _ =>
        blobs run.2 !! (container_name, blob_name) = None
        /\ exists before,
             new_events w run.2
             = (before ++ [EvDelete container_name blob_name])%list
    | Raise _ =>
        ~ In (EvDelete container_name blob_name) (new_events w run.2)
        /\ (run.2 = w
            \/ exists data,
                 open_rb E (path flat_file) = Ok data
                 /\ blobs run.2 !! (container_name, blob_name) = Some data)
    end.
Proof.
  intros E sql_table flat_file conn container_name w. cbv zeta.
  by_outcome E sql_table flat_file conn container_name w; cbn [fst snd].
  - rewrite new_events_same. split; [intros []|now left].
  - rewrite new_events_uploaded. split.
    + intros [Hin|[]]. discriminate Hin.
    + right. exists data. split; [assumption|].
      rewrite blobs_world_uploaded. now rewrite decide_True.
  - rewrite new_events_loaded. split.
    + simpl. intros [Hin|[Hin|[Hin|[]]]]; discriminate Hin.
    + right. exists data. split.
      * destruct H as (? & ? & _ & _ & Hopen & _). exact Hopen.
      * rewrite blobs_world_loaded. now rewrite decide_True.
  - rewrite new_events_deleted. split.
    + rewrite blobs_world_deleted. now rewrite decide_True.
    + eexists [_; _; _]. reflexivity.
Qed.

(** X10: the journal of a run is an initial part of upload, token, load
    statement, deletion, in this order: no token without the upload, no
    statement without the token, no deletion without the statement, and
    each call at most once.  The run returns exactly when all four are
    there. *)
Theorem X10_bcpaz_calls_in_order :
  forall (E : Env) (sql_table : SqlTable) (flat_file : FlatFile)
         (conn container_name : string) (w : World),
    let blob_name := basename (path flat_file) in
    let run := bcpaz E sql_table flat_file conn container_name w in
    (is_ok run.1 = false /\ new_events w run.2 = [])
    \/ (exists data,
          is_ok run.1 = false
          /\ new_events w run.2 = [EvUpload container_name blob_name data])
    \/ (exists data req token command,
          let staged :=
            [EvUpload container_name blob_name data;
             EvSas req token (clock w);
             EvSqlcmd (server sql_table) (database sql_table) command
               (username sql_table) (password sql_table)] in
          (is_ok run.1 = false /\ new_events w run.2 = staged)
          \/ (run.1 = Ok tt
              /\ new_events w run.2
                 = (staged ++ [EvDelete container_name blob_name])%list)).
Proof.
  intros E sql_table flat_file conn container_name w. cbv zeta.
  by_outcome E sql_table flat_file conn container_name w; cbn [fst snd].
  - left. split; [reflexivity | apply new_events_same].
  - right. left. exists data. split; [reflexivity | apply new_events_uploaded].
  - right. right. do 4 eexists. left.
    split; [reflexivity | apply new_events_loaded].
  - right. right. do 4 eexists. right.
    split; [reflexivity | apply new_events_deleted].
Qed.

(** X11: a descriptor that parses but has no [AccountName], or has it and
    no [AccountKey], makes the run raise [KeyError] for that key after the
    upload: the blob is staged, and nothing is signed or sent. *)
Theorem X11_bcpaz_missing_account_setting_raises_key_error :
  forall (E : Env) (sql_table : SqlTable) (flat_file : FlatFile)
         (conn container_name : string) (w : World) (conn' data : string)
         (blob_conn : gmap string string),
    upload_succeeds E flat_file conn container_name w conn' data ->
    parse_blob_connection_str conn' = Ok blob_conn ->
    let staged := world_uploaded container_name (basename (path flat_file))
                    data w in
    (blob_conn !! "AccountName" = None ->
     bcpaz E sql_table flat_file conn container_name w
     = (Raise (KeyError "AccountName"), staged))
    /\ (is_Some (blob_conn !! "AccountName") ->
        blob_conn !! "AccountKey" = None ->
        bcpaz E sql_table flat_file conn container_name w
        = (Raise (KeyError "AccountKey"), staged)).
Proof.
  intros E sql_table flat_file conn container_name w conn' data blob_conn
         Hup Hparse staged.
  rewrite (bcpaz_after_upload E sql_table flat_file conn container_name w
             conn' data Hup), Hparse. cbv zeta.
  split.
  - intros ->. reflexivity.
  - intros [name ->] ->. reflexivity.
Qed.

Lemma X11_bcpaz_missing_account_setting_raises_key_error_witness :
  (bcpaz (Sample.env (Sample.exit_ok EmptyString)) Sample.sql_table
     Sample.flat_file "AccountName=acct;accountkey=a2V5" "stage" Sample.world).1
  = Raise (KeyError "AccountKey").
Proof.
  assert (Hup : upload_succeeds (Sample.env (Sample.exit_ok EmptyString))
                  Sample.flat_file "AccountName=acct;accountkey=a2V5" "stage"
                  Sample.world "AccountName=acct;accountkey=a2V5/"
                  Sample.file_bytes).
  { repeat split. }
  rewrite (proj2 (X11_bcpaz_missing_account_setting_raises_key_error
                    (Sample.env (Sample.exit_ok EmptyString)) Sample.sql_table
                    Sample.flat_file "AccountName=acct;accountkey=a2V5" "stage"
                    Sample.world _ _
                    (dict [("AccountName", "acct"); ("accountkey", "a2V5/")])
                    Hup eq_refl)
             (ex_intro _ "acct" eq_refl) eq_refl).
  reflexivity.
Defined.

(** ** The slash [bcpaz] appends to the descriptor *)

Section TrailingSlash.

Import PyStr.

Lemma last_char_app (s t : string) :
  t <> EmptyString -> last_char (s ++ t) = last_char t.
Proof.
  intros Ht. induction s as [|a s IH]; [reflexivity|].
  simpl. rewrite IH. destruct (s ++ t) eqn:Hst; [|reflexivity].
  destruct s; simpl in Hst; [contradiction | discriminate].
Qed.

Lemma conn_str_of_cons (kv : string * string) (l : list (string * string)) :
  l <> [] -> conn_str_of (kv :: l) = setting_text kv ++ ";" ++ conn_str_of l.
Proof. destruct l; [congruence | reflexivity]. Qed.

(** The text of a list of settings ends with [=] and the last value. *)
Lemma conn_str_of_snoc (kvs : list (string * string)) (k : string) :
  exists front, forall v,
    conn_str_of (kvs ++ [(k, v)]) = front ++ String "=" v.
Proof.
  induction kvs as [|kv t [front IH]].
  - exists k. reflexivity.
  - exists (setting_text kv ++ ";" ++ front). intros v.
    change ((kv :: t) ++ [(k, v)])%list with (kv :: (t ++ [(k, v)]))%list.
    rewrite conn_str_of_cons by (destruct t; discriminate).
    rewrite IH. now rewrite !append_assoc.
Qed.

Lemma plain_setting_value_slash (k v : string) :
  plain_setting (k, v ++ "/") = plain_setting (k, v).
Proof.
  unfold plain_setting. simpl. rewrite mem_app. simpl.
  now rewrite orb_false_r.
Qed.

(** For a descriptor whose last value does not already end in a slash, the
    slash [bcpaz] appends becomes part of that value. *)
Lemma slash_lands_in_last_value (kvs : list (string * string)) (k v : string) :
  forallb plain_setting (kvs ++ [(k, v)]) = true ->
  last_char v <> Some "/"%char ->
  with_trailing_slash (conn_str_of (kvs ++ [(k, v)]))
    = Ok (conn_str_of (kvs ++ [(k, v ++ "/")]))
  /\ parse_blob_connection_str (conn_str_of (kvs ++ [(k, v ++ "/")]))
     = Ok (dict (kvs ++ [(k, v ++ "/")])).
Proof.
  intros Hplain Hlast. split.
  - destruct (conn_str_of_snoc kvs k) as [front Hfront].
    rewrite !Hfront. unfold with_trailing_slash.
    rewrite last_char_app by discriminate.
    assert (Hc : exists c, last_char (String "=" v) = Some c
                           /\ Ascii.eqb c "/" = false).
    { destruct v as [|b v'].
      - exists "="%char. split; reflexivity.
      - change (last_char (String "=" (String b v')))
          with (last_char (String b v')).
        destruct (last_char (String b v')) as [c|] eqn:Hl.
        + exists c. split; [reflexivity|].
          destruct (Ascii.eqb_spec c "/"); [congruence | reflexivity].
        + exfalso. clear -Hl. revert b Hl.
          induction v' as [|b' v' IH]; intros b Hl; [discriminate|].
          exact (IH b' Hl). }
    destruct Hc as (c & -> & ->).
    f_equal. rewrite append_assoc. reflexivity.
  - apply parse_of_pairs, conn_settings_conn_str_of.
    + destruct kvs; discriminate.
    + rewrite forallb_app in *. apply andb_true_iff in Hplain as [Hk Hv].
      rewrite Hk. simpl in *. now rewrite plain_setting_value_slash.
Qed.

End TrailingSlash.

(** X13: when [AccountKey] is the last setting of the descriptor and its
    value does not end in a slash, every credential of the run is signed
    with that value followed by a slash, not with the value given. *)
Theorem X13_bcpaz_signs_with_key_and_slash :
  forall (E : Env) (sql_table : SqlTable) (flat_file : FlatFile)
         (kvs : list (string * string)) (v container_name : string)
         (w : World) (req : SasRequest) (token : string) (t : Z),
    forallb plain_setting (kvs ++ [("AccountKey", v)]) = true ->
    PyStr.last_char v <> Some "/"%char ->
    In (EvSas req token t)
       (new_events w
          (bcpaz E sql_table flat_file
             (conn_str_of (kvs ++ [("AccountKey", v)])) container_name w).2) ->
    sas_account_key req = v ++ "/".
Proof.
  intros E sql_table flat_file kvs v container_name w req token t
         Hplain Hlast Hin.
  destruct (slash_lands_in_last_value kvs "AccountKey" v Hplain Hlast)
    as [Hslash Hparse].
  destruct (bcpaz_cases E sql_table flat_file
              (conn_str_of (kvs ++ [("AccountKey", v)])) container_name w)
    as [(e & _ & [Hnil | (data & Hup)]) | (data & name & key & token0 & Hst)].
  - rewrite Hnil in Hin. destruct Hin.
  - rewrite Hup in Hin. destruct Hin as [H|[]]. discriminate H.
  - destruct (bcpaz_new_events E sql_table _ _ _ _ _ _ _ _ Hst)
      as (tail & Hev & Htail).
    rewrite Hev in Hin.
    assert (Heq : EvSas (staging_request name key container_name (clock w))
                    token0 (clock w) = EvSas req token t).
    { destruct Htail as [-> | ->]; simpl in Hin;
        repeat (destruct Hin as [Hin|Hin]; try discriminate Hin; try exact Hin);
        destruct Hin. }
    injection Heq as <- _ _. simpl.
    destruct Hst as (conn' & blob_conn & Hs & _ & _ & _ & Hp & _ & Hkey & _).
    rewrite Hslash in Hs. injection Hs as <-.
    rewrite Hparse in Hp. injection Hp as <-.
    rewrite (dict_lookup_last kvs [] "AccountKey" (v ++ "/")) in Hkey
      by (intros []).
    now injection Hkey as <-.
Qed.

Lemma X13_bcpaz_signs_with_key_and_slash_witness :
  sas_account_key (staging_request "acct" "a2V5/" "stage" 1700000000000000)
  = "a2V5/".
Proof.
  apply (X13_bcpaz_signs_with_key_and_slash
           (Sample.env (Sample.exit_ok EmptyString)) Sample.sql_table
           Sample.flat_file [("AccountName", "acct")] "a2V5" "stage"
           Sample.world _ "sr=c&sp=racwdxt&sig=acct" 1700000000000000).
  - reflexivity.
  - discriminate.
  - right. left. reflexivity.
Defined.

(** ** What [bcpaz] hands to the runner and to the store *)

Lemma copy_into_sql_secret_clause
    (schema_name table_name container_name blob_name sas : string) :
  PyStr.contains
    ("CREDENTIAL=(IDENTITY= 'Shared Access Signature', SECRET='" ++ sas ++ "'),")
    (copy_into_sql schema_name table_name container_name blob_name sas) = true.
Proof.
  unfold copy_into_sql.
  match goal with
  | |- PyStr.contains ?needle _ = true =>
      etransitivity;
      [| exact (contains_app_r needle
                  (str1 LF
                   ++ "    COPY INTO [" ++ schema_name ++ "].[" ++ table_name
                   ++ "]" ++ str1 LF
                   ++ "    FROM '" ++ blob_url container_name blob_name ++ "'"
                   ++ str1 LF
                   ++ "    WITH (" ++ str1 LF
                   ++ "        FILE_TYPE = 'CSV'," ++ str1 LF
                   ++ "        ")
                  (str1 LF
                   ++ "        FIELDQUOTE = '" ++ str1 DQUOTE ++ "'," ++ str1 LF
                   ++ "        FIELDTERMINATOR=','," ++ str1 LF
                   ++ "        FIRSTROW=2, -- Skip header" ++ str1 LF
                   ++ "        ROWTERMINATOR='0X0A'," ++ str1 LF
                   ++ "        ENCODING = 'UTF8'," ++ str1 LF
                   ++ "        MAXERRORS = 0," ++ str1 LF
                   ++ "        ERRORFILE = '/errorsfolder_" ++ blob_name
                   ++ "' --path starting from the storage container" ++ str1 LF
                   ++ "    )" ++ str1 LF
                   ++ "    "))]
  end.
  f_equal. rewrite !append_assoc. reflexivity.
Qed.

Lemma copy_into_sql_errorfile_clause
    (schema_name table_name container_name blob_name sas : string) :
  PyStr.contains
    ("ERRORFILE = '/errorsfolder_" ++ blob_name ++ "'")
    (copy_into_sql schema_name table_name container_name blob_name sas) = true.
Proof.
  unfold copy_into_sql.
  match goal with
  | |- PyStr.contains ?needle _ = true =>
      etransitivity;
      [| exact (contains_app_r needle
                  (str1 LF
                   ++ "    COPY INTO [" ++ schema_name ++ "].[" ++ table_name
                   ++ "]" ++ str1 LF
                   ++ "    FROM '" ++ blob_url container_name blob_name ++ "'"
                   ++ str1 LF
                   ++ "    WITH (" ++ str1 LF
                   ++ "        FILE_TYPE = 'CSV'," ++ str1 LF
                   ++ "        CREDENTIAL=(IDENTITY= 'Shared Access Signature', SECRET='"
                   ++ sas ++ "')," ++ str1 LF
                   ++ "        FIELDQUOTE = '" ++ str1 DQUOTE ++ "'," ++ str1 LF
                   ++ "        FIELDTERMINATOR=','," ++ str1 LF
                   ++ "        FIRSTROW=2, -- Skip header" ++ str1 LF
                   ++ "        ROWTERMINATOR='0X0A'," ++ str1 LF
                   ++ "        ENCODING = 'UTF8'," ++ str1 LF
                   ++ "        MAXERRORS = 0," ++ str1 LF
                   ++ "        ")
                  (" --path starting from the storage container" ++ str1 LF
                   ++ "    )" ++ str1 LF
                   ++ "    "))]
  end.
  f_equal. rewrite !append_assoc. reflexivity.
Qed.

(** The events of any run, read off its outcome. *)
Lemma bcpaz_events (E : Env) (sql_table : SqlTable) (flat_file : FlatFile)
    (conn container_name : string) (w : World) :
  let blob_name := basename (path flat_file) in
  let evs := new_events w
               (bcpaz E sql_table flat_file conn container_name w).2 in
  evs = []
  \/ (exists data,
        open_rb E (path flat_file) = Ok data
        /\ evs = [EvUpload container_name blob_name data])
  \/ exists data name key token tail,
       staging_succeeds E flat_file conn container_name w data name key token
       /\ (tail = [] \/ tail = [EvDelete container_name blob_name])
       /\ evs = ([EvUpload container_name blob_name data;
                  EvSas (staging_request name key container_name (clock w))
                    token (clock w);
                  EvSqlcmd (server sql_table) (database sql_table)
                    (copy_into_sql (schema sql_table) (table sql_table)
                       container_name blob_name token)
                    (username sql_table) (password sql_table)] ++ tail)%list.
Proof.
  cbv zeta.
  by_outcome E sql_table flat_file conn container_name w; cbn [snd].
  - left. apply new_events_same.
  - right. left. exists data. split; [assumption | apply new_events_uploaded].
  - right. right. exists data, name, key, token, [].
    split; [assumption|]. split; [now left | apply new_events_loaded].
  - right. right.
    exists data, name, key, token, [EvDelete container_name (basename (path flat_file))].
    split; [assumption|]. split; [now right | apply new_events_deleted].
Qed.

Ltac pick_event Hin :=
  simpl in Hin;
  repeat (destruct Hin as [Hin|Hin]; try discriminate Hin);
  try contradiction.

(** X14: whenever a run calls the command runner, it does so with the
    server, the database, the user name and the password of the target
    table, and sends one statement only. *)
Theorem X14_bcpaz_runs_statement_as_table_user :
  forall (E : Env) (sql_table : SqlTable) (flat_file : FlatFile)
         (conn container_name : string) (w : World)
         (srv db command : string) (user pw : option string),
    let evs := new_events w
                 (bcpaz E sql_table flat_file conn container_name w).2 in
    In (EvSqlcmd srv db command user pw) evs ->
    srv = server sql_table /\ db = database sql_table
    /\ user = username sql_table /\ pw = password sql_table
    /\ forall srv' db' command' user' pw',
         In (EvSqlcmd srv' db' command' user' pw') evs ->
         command' = command.
Proof.
  intros E sql_table flat_file conn container_name w srv db command user pw evs.
  subst evs.
  destruct (bcpaz_events E sql_table flat_file conn container_name w)
    as [-> | [(data & _ & ->) | (data & name & key & token & tail & _ & Htail & ->)]];
    intros Hin.
  - destruct Hin.
  - pick_event Hin.
  - destruct Htail as [-> | ->]; pick_event Hin;
      injection Hin as <- <- <- <- <-;
      (repeat split; try reflexivity);
      intros srv' db' command' user' pw' Hin'; pick_event Hin';
      now injection Hin' as _ _ <- _ _.
Qed.

Lemma X14_bcpaz_runs_statement_as_table_user_witness :
  "db.example.net" = server Sample.sql_table
  /\ Some "hunter2" = password Sample.sql_table.
Proof.
  destruct (X14_bcpaz_runs_statement_as_table_user
              (Sample.env (Sample.exit_ok EmptyString)) Sample.sql_table
              Sample.flat_file Sample.conn_str "stage" Sample.world
              "db.example.net" "dw"
              (copy_into_sql "dbo" "sales" "stage" "sales.csv"
                 "sr=c&sp=racwdxt&sig=acct")
              (Some "loader") (Some "hunter2"))
    as (Hsrv & _ & _ & Hpw & _).
  - right. right. left. reflexivity.
  - split; assumption.
Defined.

(** X15: the statement a run sends carries the token the run has just had
    signed as its secret, and names the error file after the blob. *)
Theorem X15_bcpaz_statement_carries_minted_token :
  forall (E : Env) (sql_table : SqlTable) (flat_file : FlatFile)
         (conn container_name : string) (w : World)
         (srv db command : string) (user pw : option string),
    let evs := new_events w
                 (bcpaz E sql_table flat_file conn container_name w).2 in
    In (EvSqlcmd srv db command user pw) evs ->
    exists req token,
      In (EvSas req token (clock w)) evs
      /\ sign_container_sas E req = Ok token
      /\ PyStr.contains
           ("CREDENTIAL=(IDENTITY= 'Shared Access Signature', SECRET='"
            ++ token ++ "'),") command = true
      /\ PyStr.contains
           ("ERRORFILE = '/errorsfolder_" ++ basename (path flat_file) ++ "'")
           command = true.
Proof.
  intros E sql_table flat_file conn container_name w srv db command user pw evs.
  subst evs.
  destruct (bcpaz_events E sql_table flat_file conn container_name w)
    as [-> | [(data & _ & ->) | (data & name & key & token & tail & Hst & Htail & ->)]];
    intros Hin.
  - destruct Hin.
  - pick_event Hin.
  - exists (staging_request name key container_name (clock w)), token.
    split; [right; now left|].
    split; [destruct Hst as (? & ? & Hst); apply Hst|].
    assert (Hcmd : command = copy_into_sql (schema sql_table) (table sql_table)
                               container_name (basename (path flat_file)) token).
    { destruct Htail as [-> | ->]; pick_event Hin;
        now injection Hin as _ _ <- _ _. }
    rewrite Hcmd. split;
      [apply copy_into_sql_secret_clause | apply copy_into_sql_errorfile_clause].
Qed.

Lemma X15_bcpaz_statement_carries_minted_token_witness :
  exists req token,
    In (EvSas req token 1700000000000000)
       (new_events Sample.world
          (bcpaz (Sample.env (Sample.exit_ok EmptyString)) Sample.sql_table
             Sample.flat_file Sample.conn_str "stage" Sample.world).2)
    /\ PyStr.contains
         ("CREDENTIAL=(IDENTITY= 'Shared Access Signature', SECRET='"
          ++ token ++ "'),")
         (copy_into_sql "dbo" "sales" "stage" "sales.csv"
            "sr=c&sp=racwdxt&sig=acct") = true.
Proof.
  destruct (X15_bcpaz_statement_carries_minted_token
              (Sample.env (Sample.exit_ok EmptyString)) Sample.sql_table
              Sample.flat_file Sample.conn_str "stage" Sample.world
              "db.example.net" "dw"
              (copy_into_sql "dbo" "sales" "stage" "sales.csv"
                 "sr=c&sp=racwdxt&sig=acct")
              (Some "loader") (Some "hunter2"))
    as (req & token & Hin & _ & Hsecret & _).
  - right. right. left. reflexivity.
  - exists req, token. split; [exact Hin | exact Hsecret].
Defined.

(** ** More on [bcp] *)

Section BcpMore.

Import PyStr.

(** Replacing a text that does not occur changes nothing. *)
Lemma replace_go_absent (old new s : string) :
  contains old s = false -> replace_go old new 0 s = s.
Proof.
  induction s as [|c s IH]; [reflexivity|].
  intros H. cbn [contains] in H. apply orb_false_iff in H as [Hstart Hrest].
  cbn [replace_go]. rewrite Hstart, (IH Hrest). reflexivity.
Qed.

Lemma replace_absent (old new s : string) :
  old <> EmptyString -> contains old s = false -> replace old new s = s.
Proof.
  intros Hne H. destruct old; [contradiction|]. now apply replace_go_absent.
Qed.


Lemma scrub_args_no_str (E : Env) (pw : option string) (l : list pyval) :
  existsb is_str l = false -> scrub_args E pw l = Ok l.
Proof.
  induction l as [|a l IH]; [reflexivity|].
  destruct a; simpl; try discriminate; intros H; rewrite (IH H); reflexivity.
Qed.

Lemma scrub_args_none (E : Env) (l : list pyval) :
  existsb is_str l = true ->
  scrub_args E None l = Raise (ValueError "Invalid input. Cannot compute hash.").
Proof.
  induction l as [|a l IH]; [discriminate|].
  destruct a; simpl; [reflexivity | | |]; intros H; rewrite (IH H); reflexivity.
Qed.


(** When the format-file path cannot be had, [bcp] raises what the
    [except] block makes of the exception. *)
Lemma bcp_construction_failure (E : Env) (sql_table : SqlTable)
    (flat_file : FlatFile) (batch_size : Z) (e : exn) :
  get_format_file_path flat_file = Raise e ->
  bcp E sql_table flat_file batch_size
  = match scrub_args E (password sql_table) (exn_args e) with
    | Ok args_clean => Raise (PyExn (exn_cls e) args_clean)
    | Raise e' => Raise e'
    end.
Proof.
  intros H. unfold bcp, bcp_command. rewrite H. simpl.
  destruct (scrub_args E _ _); reflexivity.
Qed.

Lemma bcp_after_spawn (E : Env) (sql_table : SqlTable) (flat_file : FlatFile)
    (batch_size : Z) (cmd : list (option string)) (argv : list string)
    (p : ProcessExit) :
  bcp_command E sql_table flat_file batch_size = Ok cmd ->
  argv_strings cmd = Some argv ->
  spawn E argv = Ok p ->
  bcp E sql_table flat_file batch_size
  = if (exit_code p =? 0)%Z then Ok tt
    else Raise (Exception
                  ("Bcp command failed. Details:" ++ str1 LF
                   ++ CompletedProcess_str
                        {| args := cmd; returncode := exit_code p;
                           stdout := None; stderr := Some (err_bytes p) |})).
Proof.
  intros Hcmd Hargv Hspawn. unfold bcp. rewrite Hcmd. simpl bind_result.
  unfold subprocess_run. rewrite Hargv, Hspawn. reflexivity.
Qed.

Lemma argv_strings_none (l : list (option string)) :
  In None l -> argv_strings l = None.
Proof.
  induction l as [|[a|] l IH]; simpl; [intros [] | | reflexivity].
  intros [H|H]; [discriminate|]. now rewrite (IH H).
Qed.

End BcpMore.

(** X17: when building the command fails and the table has no password
    (as with Kerberos), an exception that carries a string argument is
    lost: [bcp] raises the [ValueError] of [sha512] in its place.  An
    exception without string arguments is raised again as it is, whatever
    the password. *)
Theorem X17_bcp_construction_failure_without_password :
  forall (E : Env) (sql_table : SqlTable) (flat_file : FlatFile)
         (batch_size : Z) (e : exn),
    get_format_file_path flat_file = Raise e ->
    (password sql_table = None ->
     existsb is_str (exn_args e) = true ->
     bcp E sql_table flat_file batch_size
     = Raise (ValueError "Invalid input. Cannot compute hash."))
    /\ (existsb is_str (exn_args e) = false ->
        bcp E sql_table flat_file batch_size = Raise e).
Proof.
  intros E sql_table flat_file batch_size e Hfmt.
  rewrite (bcp_construction_failure _ _ _ _ _ Hfmt). split.
  - intros -> Hstr. now rewrite scrub_args_none.
  - intros Hstr. rewrite scrub_args_no_str by exact Hstr. now destruct e.
Qed.

Lemma X17_bcp_construction_failure_without_password_witness :
  bcp (Sample.env Sample.exit_failed)
    {| schema := "dbo"; table := "sales"; server := "db.example.net";
       database := "dw"; username := None; password := None;
       with_krb_auth := true |}
    {| path := "/data/in/sales.csv";
       get_format_file_path :=
         Raise (PyExn OSErrorC [PInt 2; PStr "No such file or directory"]);
       file_has_header_line := true |}
    1000
  = Raise (ValueError "Invalid input. Cannot compute hash.").
Proof.
  match goal with
  | |- bcp ?E ?t ?f ?n = _ =>
      apply (proj1 (X17_bcp_construction_failure_without_password
                      E t f n _ eq_refl))
  end; reflexivity.
Defined.



(** X19: without Kerberos, a table whose user name or password is absent
    makes [bcp] fail with a [TypeError] when it hands the arguments to
    [subprocess.run], in every environment. *)
Theorem X19_bcp_absent_credentials_raise_type_error :
  forall (E : Env) (sql_table : SqlTable) (flat_file : FlatFile)
         (batch_size : Z) (format_file : string),
    with_krb_auth sql_table = false ->
    username sql_table = None \/ password sql_table = None ->
    get_format_file_path flat_file = Ok format_file ->
    exists e,
      bcp E sql_table flat_file batch_size = Raise e
      /\ exn_cls e = TypeErrorC.
Proof.
  intros E sql_table flat_file batch_size format_file Hkrb Habsent Hfmt.
  assert (Hcmd : exists cmd,
             bcp_command E sql_table flat_file batch_size = Ok cmd
             /\ In None cmd).
  { unfold bcp_command, bcp_auth. rewrite Hfmt, Hkrb. simpl bind_result.
    destruct (file_has_header_line flat_file); eexists;
      (split; [reflexivity|]);
      destruct Habsent as [-> | ->]; simpl; tauto. }
  destruct Hcmd as (cmd & Hcmd & Hnone).
  unfold bcp. rewrite Hcmd. simpl bind_result.
  unfold subprocess_run. rewrite (argv_strings_none cmd Hnone).
  eexists. split; reflexivity.
Qed.

Lemma X19_bcp_absent_credentials_raise_type_error_witness :
  exists e,
    bcp (Sample.env (Sample.exit_ok EmptyString))
      {| schema := "dbo"; table := "sales"; server := "db.example.net";
         database := "dw"; username := Some "loader"; password := None;
         with_krb_auth := false |}
      Sample.flat_file 1000 = Raise e
    /\ exn_cls e = TypeErrorC.
Proof.
  apply (X19_bcp_absent_credentials_raise_type_error
           (Sample.env (Sample.exit_ok EmptyString)) _ Sample.flat_file 1000
           "/data/in/sales.fmt").
  - reflexivity.
  - right. reflexivity.
  - reflexivity.
Defined.

(** X20: once the process has been run, [bcp] looks at its exit status
    only: it returns exactly when the status is zero, whatever the process
    wrote, and raises the load failure for every other status, negative
    ones included. *)
Theorem X20_bcp_returns_iff_exit_status_zero :
  forall (E : Env) (sql_table : SqlTable) (flat_file : FlatFile)
         (batch_size : Z) (cmd : list (option string)) (argv : list string)
         (p : ProcessExit),
    bcp_command E sql_table flat_file batch_size = Ok cmd ->
    argv_strings cmd = Some argv ->
    spawn E argv = Ok p ->
    (bcp E sql_table flat_file batch_size = Ok tt <-> exit_code p = 0%Z)
    /\ (exit_code p <> 0%Z ->
        exists msg,
          bcp E sql_table flat_file batch_size = Raise (Exception msg)
          /\ PyStr.startswith "Bcp command failed. Details:" msg = true).
Proof.
  intros E sql_table flat_file batch_size cmd argv p Hcmd Hargv Hspawn.
  rewrite (bcp_after_spawn _ _ _ _ _ _ _ Hcmd Hargv Hspawn).
  destruct (Z.eqb_spec (exit_code p) 0) as [Hz|Hnz].
  - split; [tauto | contradiction].
  - split; [split; [discriminate | contradiction]|].
    intros _. eexists. split; [reflexivity|]. reflexivity.
Qed.

Lemma X20_bcp_returns_iff_exit_status_zero_witness :
  bcp (Sample.env (Sample.exit_ok "1000 rows copied.")) Sample.sql_table
    Sample.flat_file 1000 = Ok tt.
Proof.
  eapply (proj1 (X20_bcp_returns_iff_exit_status_zero
                   (Sample.env (Sample.exit_ok "1000 rows copied."))
                   Sample.sql_table Sample.flat_file 1000 _ _ _
                   eq_refl eq_refl eq_refl)).
  reflexivity.
Defined.

(** ** More on [sqlcmd] *)

Section SqlcmdMore.

Import PyStr.

(** What [sqlcmd] does once the client has exited with another status. *)
Lemma sqlcmd_on_failure (E : Env) (server database command : string)
    (username password : option string) (p : ProcessExit) :
  spawn E (sqlcmd_command server database command username password) = Ok p ->
  exit_code p <> 0%Z ->
  sqlcmd E server database command username password
  = match password with
    | Some pw =>
        Raise (Exception
                 ("Sqlcmd command failed. Details:" ++ str1 LF
                  ++ replace pw (hexdigest E pw)
                       (CompletedProcess_str
                          {| args := map Some
                                       (sqlcmd_command server database command
                                          username password);
                             returncode := exit_code p;
                             stdout := Some (out_bytes p);
                             stderr := Some (err_bytes p) |})))
    | None => Raise (ValueError "Invalid input. Cannot compute hash.")
    end.
Proof.
  intros Hspawn Hexit. unfold sqlcmd, subprocess_run.
  rewrite sqlcmd_argv_strings, Hspawn. simpl bind_result. cbn [returncode].
  destruct (Z.eqb_spec (exit_code p) 0) as [Hz|_]; [contradiction|].
  destruct password; reflexivity.
Qed.



Lemma is_ascii_false_decode (b : string) :
  is_ascii b = false ->
  exists e, decode_ascii b = Raise e /\ exn_cls e = UnicodeDecodeErrorC.
Proof.
  intros H. unfold decode_ascii. rewrite H. eexists. split; reflexivity.
Qed.

End SqlcmdMore.

(** X21: output that is not pure ASCII makes a successful command fail:
    with exit status 0 and a byte of 128 or more on standard output,
    [sqlcmd] raises [UnicodeDecodeError] instead of returning a table. *)
Theorem X21_sqlcmd_non_ascii_output_raises :
  forall (E : Env) (server database command : string)
         (username password : option string) (p : ProcessExit),
    spawn E (sqlcmd_command server database command username password) = Ok p ->
    exit_code p = 0%Z ->
    is_ascii (out_bytes p) = false ->
    exists e,
      sqlcmd E server database command username password = Raise e
      /\ exn_cls e = UnicodeDecodeErrorC.
Proof.
  intros E server database command username password p Hspawn Hexit Hbytes.
  rewrite (sqlcmd_on_success _ _ _ _ _ _ _ Hspawn Hexit).
  destruct (is_ascii_false_decode _ Hbytes) as (e & -> & Hcls).
  exists e. split; [reflexivity | exact Hcls].
Qed.

Lemma X21_sqlcmd_non_ascii_output_raises_witness :
  exists e,
    sqlcmd (Sample.env (Sample.exit_ok ("name" ++ str1 LF ++ "-" ++ str1 LF
                                        ++ "Ren" ++ str1 "233"%char ++ str1 LF)))
      "db.example.net" "dw" "select name from t" None None = Raise e
    /\ exn_cls e = UnicodeDecodeErrorC.
Proof.
  eapply (X21_sqlcmd_non_ascii_output_raises
            (Sample.env (Sample.exit_ok _)) "db.example.net" "dw"
            "select name from t" None None);
    reflexivity.
Defined.

(** X22: credentials are used only when both are given and not empty.  If
    the user name or the password is absent or empty, the other one is
    dropped and the client is called with [-E], exactly as when neither is
    given; otherwise it is called with [-U] and [-P]. *)
Theorem X22_sqlcmd_partial_credentials_are_dropped :
  forall (server database command : string) (username password : option string),
    (falsy username || falsy password = true ->
     sqlcmd_command server database command username password
     = ["sqlcmd"; "-S"; server; "-d"; database; "-b"; "-E";
        "-I"; "-s,"; "-W"; "-Q"; "set nocount on;" ++ command])
    /\ (forall u p,
          username = Some u -> password = Some p ->
          u <> EmptyString -> p <> EmptyString ->
          sqlcmd_command server database command username password
          = ["sqlcmd"; "-S"; server; "-d"; database; "-b"; "-U"; u; "-P"; p;
             "-I"; "-s,"; "-W"; "-Q"; "set nocount on;" ++ command]).
Proof.
  intros server database command username password. split.
  - intros H. unfold sqlcmd_command, sqlcmd_auth. now rewrite H.
  - intros u p -> -> Hu Hp. unfold sqlcmd_command, sqlcmd_auth.
    destruct u; [contradiction|]. destruct p; [contradiction|]. reflexivity.
Qed.

Lemma X22_sqlcmd_partial_credentials_are_dropped_witness :
  sqlcmd_command "db.example.net" "dw" "select 1" (Some "loader") None
  = sqlcmd_command "db.example.net" "dw" "select 1" None None.
Proof.
  rewrite (proj1 (X22_sqlcmd_partial_credentials_are_dropped
                    "db.example.net" "dw" "select 1" (Some "loader") None)
             eq_refl).
  reflexivity.
Defined.



(** X24: when the command line and the password are ASCII, the command
    fails and the password, not empty, occurs nowhere in the printed
    result, the message is that result unchanged. *)
Theorem X24_sqlcmd_failure_message_without_password_is_verbatim :
  forall (E : Env) (server database command : string)
         (username : option string) (pw : string) (p : ProcessExit),
    forallb is_ascii
      (sqlcmd_command server database command username (Some pw)) = true ->
    is_ascii pw = true ->
    spawn E (sqlcmd_command server database command username (Some pw)) = Ok p ->
    exit_code p <> 0%Z ->
    pw <> EmptyString ->
    let dump :=
      CompletedProcess_str
        {| args := map Some
                     (sqlcmd_command server database command username (Some pw));
           returncode := exit_code p;
           stdout := Some (out_bytes p);
           stderr := Some (err_bytes p) |} in
    PyStr.contains pw dump = false ->
    sqlcmd E server database command username (Some pw)
    = Raise (Exception ("Sqlcmd command failed. Details:" ++ str1 LF ++ dump)).
Proof.
  intros E server database command username pw p _ _ Hspawn Hexit Hne dump
         Habsent.
  rewrite (sqlcmd_on_failure _ _ _ _ _ _ _ Hspawn Hexit).
  fold dump. now rewrite (replace_absent pw _ dump Hne Habsent).
Qed.

Lemma X24_sqlcmd_failure_message_without_password_is_verbatim_witness :
  sqlcmd (Sample.env Sample.exit_failed) "db.example.net" "dw" "select 1"
    None (Some "hunter2")
  = Raise (Exception
      ("Sqlcmd command failed. Details:" ++ str1 LF
       ++ "CompletedProcess(args=['sqlcmd', '-S', 'db.example.net', '-d', 'dw', "
       ++ "'-b', '-E', '-I', '-s,', '-W', '-Q', 'set nocount on;select 1'], "
       ++ "returncode=1, stdout=b'', stderr=b"
       ++ str1 DQUOTE ++ "Login failed for user 'loader'." ++ str1 DQUOTE ++ ")")).
Proof.
  apply (X24_sqlcmd_failure_message_without_password_is_verbatim
           (Sample.env Sample.exit_failed) "db.example.net" "dw" "select 1"
           None "hunter2" Sample.exit_failed eq_refl eq_refl eq_refl).
  - discriminate.
  - discriminate.
  - reflexivity.
Defined.

(** ** What [bcpaz] does with the descriptor it is given *)

(** X6: an empty connection descriptor makes [bcpaz] raise [IndexError] at
    its first test, with nothing uploaded or journalled.  For every other
    descriptor, what [bcpaz] hands to the SDK client and then to the
    parser is a text ending in a slash, the descriptor itself when it ends
    in one and the descriptor with a slash appended otherwise: it is this
    text whose rejection by the client ends the run before the upload, and
    whose rejection by the parser ends it after the upload. *)
Theorem X6_bcpaz_hands_on_descriptor_with_slash :
  forall (E : Env) (sql_table : SqlTable) (flat_file : FlatFile)
         (conn container_name : string) (w : World),
    let blob_name := basename (path flat_file) in
    (conn = EmptyString ->
     bcpaz E sql_table flat_file conn container_name w
     = (Raise (IndexError "string index out of range"), w))
    /\ (conn <> EmptyString ->
        exists conn',
          PyStr.last_char conn' = Some "/"%char
          /\ (PyStr.last_char conn = Some "/"%char -> conn' = conn)
          /\ (PyStr.last_char conn <> Some "/"%char -> conn' = conn ++ "/")
          /\ (forall e,
                from_connection_string E conn' container_name blob_name
                  = Raise e ->
                bcpaz E sql_table flat_file conn container_name w
                = (Raise e, w))
          /\ (forall data e,
                from_connection_string E conn' container_name blob_name
                  = Ok tt ->
                open_rb E (path flat_file) = Ok data ->
                blobs w !! (container_name, blob_name) = None ->
                parse_blob_connection_str conn' = Raise e ->
                bcpaz E sql_table flat_file conn container_name w
                = (Raise e,
                   world_uploaded container_name blob_name data w))).
Proof.
  intros E sql_table flat_file conn container_name w blob_name. split.
  - intros ->. reflexivity.
  - intros Hne. destruct (last_char_some conn Hne) as [c Hc].
    assert (Hslash : exists conn',
               with_trailing_slash conn = Ok conn'
               /\ PyStr.last_char conn' = Some "/"%char
               /\ (PyStr.last_char conn = Some "/"%char -> conn' = conn)
               /\ (PyStr.last_char conn <> Some "/"%char -> conn' = conn ++ "/")).
    { unfold with_trailing_slash. rewrite Hc.
      destruct (Ascii.eqb_spec c "/") as [-> | Hnot].
      - exists conn. repeat split; [exact Hc | congruence].
      - exists (conn ++ "/"). split; [reflexivity|]. split.
        + apply (last_char_snoc conn "/").
        + split; [intros [= ->]; contradiction | reflexivity]. }
    destruct Hslash as (conn' & Hok & Hlast & Hsame & Happ).
    exists conn'. repeat split; try assumption.
    + intros e Hclient. unfold bcpaz, bind, lift.
      fold blob_name. now rewrite Hok, Hclient.
    + intros data e Hclient Hopen Hfree Hparse.
      rewrite (bcpaz_after_upload E sql_table flat_file conn container_name w
                 conn' data); [|repeat split; assumption].
      now rewrite Hparse.
Qed.

Lemma X6_bcpaz_hands_on_descriptor_with_slash_witness :
  bcpaz (Sample.env (Sample.exit_ok EmptyString)) Sample.sql_table
    Sample.flat_file "AccountName=acct;AccountKey=a2V5;" "stage" Sample.world
  = (Raise (ValueError "Connection string is either blank or malformed."),
     world_uploaded "stage" "sales.csv" Sample.file_bytes Sample.world).
Proof.
  destruct (proj2 (X6_bcpaz_hands_on_descriptor_with_slash
                     (Sample.env (Sample.exit_ok EmptyString)) Sample.sql_table
                     Sample.flat_file "AccountName=acct;AccountKey=a2V5;"
                     "stage" Sample.world))
    as (conn' & _ & _ & Happ & _ & Hparse).
  - discriminate.
  - rewrite (Happ ltac:(discriminate)) in Hparse.
    apply (Hparse Sample.file_bytes); reflexivity.
Defined.


(** The account settings a run has signed with, for a descriptor of plain
    settings whose last value does not end in a slash. *)
Lemma bcpaz_signed_settings (E : Env) (sql_table : SqlTable)
    (flat_file : FlatFile) (kvs : list (string * string)) (k v : string)
    (container_name : string) (w : World) (req : SasRequest)
    (token : string) (t : Z) :
  forallb plain_setting (kvs ++ [(k, v)]) = true ->
  PyStr.last_char v <> Some "/"%char ->
  In (EvSas req token t)
     (new_events w
        (bcpaz E sql_table flat_file (conn_str_of (kvs ++ [(k, v)]))
           container_name w).2) ->
  dict (kvs ++ [(k, v ++ "/")]) !! "AccountName" = Some (sas_account_name req)
  /\ dict (kvs ++ [(k, v ++ "/")]) !! "AccountKey" = Some (sas_account_key req)
  /\ sas_container_name req = container_name
  /\ sas_permission req = bcpaz_perms.
Proof.
  intros Hplain Hlast Hin.
  destruct (slash_lands_in_last_value kvs k v Hplain Hlast) as [Hslash Hparse].
  destruct (bcpaz_cases E sql_table flat_file
              (conn_str_of (kvs ++ [(k, v)])) container_name w)
    as [(e & _ & [Hnil | (data & Hup)]) | (data & name & key & token0 & Hst)].
  - rewrite Hnil in Hin. destruct Hin.
  - rewrite Hup in Hin. destruct Hin as [H|[]]. discriminate H.
  - destruct (bcpaz_new_events E sql_table _ _ _ _ _ _ _ _ Hst)
      as (tail & Hev & Htail).
    rewrite Hev in Hin.
    assert (Heq : EvSas (staging_request name key container_name (clock w))
                    token0 (clock w) = EvSas req token t).
    { destruct Htail as [-> | ->]; simpl in Hin;
        repeat (destruct Hin as [Hin|Hin]; try discriminate Hin; try exact Hin);
        destruct Hin. }
    injection Heq as <- _ _. simpl.
    destruct Hst as (conn' & blob_conn & Hs & _ & _ & _ & Hp & Hname & Hkey & _).
    rewrite Hslash in Hs. injection Hs as <-.
    rewrite Hparse in Hp. injection Hp as <-.
    repeat split; assumption.
Qed.



(** X12: [bcpaz] works with the settings of the descriptor with a slash
    appended: for a descriptor [K1=V1;...;Kn=Vn] whose last value does not
    end in a slash, the account name and the account key of every
    credential the run has signed are the [AccountName] and [AccountKey]
    entries of the settings with [Vn/] in place of [Vn]. *)
Theorem X12_bcpaz_signs_from_slashed_settings :
  forall (E : Env) (sql_table : SqlTable) (flat_file : FlatFile)
         (kvs : list (string * string)) (k v container_name : string)
         (w : World) (req : SasRequest) (token : string) (t : Z),
    forallb plain_setting (kvs ++ [(k, v)]) = true ->
    PyStr.last_char v <> Some "/"%char ->
    In (EvSas req token t)
       (new_events w
          (bcpaz E sql_table flat_file (conn_str_of (kvs ++ [(k, v)]))
             container_name w).2) ->
    dict (kvs ++ [(k, v ++ "/")]) !! "AccountName" = Some (sas_account_name req)
    /\ dict (kvs ++ [(k, v ++ "/")]) !! "AccountKey"
       = Some (sas_account_key req).
Proof.
  intros E sql_table flat_file kvs k v container_name w req token t
         Hplain Hlast Hin.
  destruct (bcpaz_signed_settings E sql_table flat_file kvs k v
              container_name w req token t Hplain Hlast Hin)
    as (Hname & Hkey & _).
  split; assumption.
Qed.

Lemma X12_bcpaz_signs_from_slashed_settings_witness :
  dict [("AccountKey", "a2V5"); ("AccountName", "acct/")] !! "AccountName"
    = Some (sas_account_name
              (staging_request "acct/" "a2V5" "stage" 1700000000000000)).
Proof.
  apply (X12_bcpaz_signs_from_slashed_settings
           (Sample.env (Sample.exit_ok EmptyString)) Sample.sql_table
           Sample.flat_file [("AccountKey", "a2V5")] "AccountName" "acct"
           "stage" Sample.world
           (staging_request "acct/" "a2V5" "stage" 1700000000000000)
           "sr=c&sp=racwdxt&sig=acct/" 1700000000000000).
  - reflexivity.
  - discriminate.
  - right. left. reflexivity.
Defined.
